(** * AI caseworker: risk scoring, explanation fallback and human approval

    A shallow embedding of the Python sources of the welfare caseworker
    demo and the properties its specification states about them.

    - [Workflow]     step5_human_in_loop.py   (class ApprovalWorkflow)
    - [Models]       backend/models.py, step2_ml_risk_model.py
    - [Explanation]  backend/explanation.py
    - [App]          backend/app.py, step4_backend_api.py
    - [Main]         backend/main.py (GET /cases only)
    - [Step2]        step2_ml_risk_model.py (save_model, load_model)
    - [Step1]        step1_generate_dataset.py

    Conventions.  Python [str] is [string]; a [float] that is a number is
    a rational [Q] (comparison, clipping and truncation are exact on
    them); [None] is [option]; a list of dicts is a [list] of records,
    and a dict found with [next(...)] and then assigned to is the list
    updated at the position where it was found.  [datetime.now()] is read
    from outside: each function takes the text of the clock readings it
    makes as arguments. *)

From Stdlib Require Import QArith Qminmax Qabs ZArith String Ascii.
From stdpp Require Import base list strings option pretty sorting.

Open Scope string_scope.

(** ** Calls that thread a store and may raise

    [Run S E A] is a Python call on a store [S]: it ends with a value of
    [A] or with an exception of [E], and with the store as it left it
    (what a raising call did before it raised stays done). *)

Definition Run (S E A : Type) : Type := S → (E + A) * S.

Global Instance run_ret {S E} : MRet (Run S E) := λ A x s, (inr x, s).

Global Instance run_bind {S E} : MBind (Run S E) := λ A B f m s,
  match m s with
  | (inl e, s') => (inl e, s')
  | (inr a, s') => f a s'
  end.

Definition raise {S E A} (e : E) : Run S E A := λ s, (inl e, s).
Definition get {S E} : Run S E S := λ s, (inr s, s).
Definition put {S E} (s : S) : Run S E unit := λ _, (inr tt, s).
Definition modify {S E} (f : S → S) : Run S E unit := λ s, (inr tt, f s).

(** [x in [a, b, ...]] on strings. *)
Definition str_in (x : string) (l : list string) : bool :=
  existsb (String.eqb x) l.

(** [o == s] where [o] may be [None]. *)
Definition opt_str_eqb (o : option string) (s : string) : bool :=
  match o with
  | Some x => String.eqb x s
  | None => false
  end.

(** Truthiness of an optional string argument: [None] and [''] are falsy. *)
Definition truthy (o : option string) : bool :=
  match o with
  | Some s => negb (String.eqb s "")
  | None => false
  end.

(** * step5_human_in_loop.py *)

Module Workflow.

Inductive DecisionStatus := PENDING_APPROVAL | APPROVED | REJECTED.

Global Instance DecisionStatus_eq_dec : EqDecision DecisionStatus.
Proof. solve_decision. Defined.

(** The dict built by [create_approval_request]. *)
Record approval := {
  case_id : string;
  ai_recommendation : string;
  ai_risk_score : Q;
  ai_explanation : string;
  status : DecisionStatus;
  created_at : string;
  human_decision : option string;
  officer_id : option string;
  officer_notes : option string;
  approved_at : option string
}.

(** The dict printed by [_log_approval]. *)
Record audit_log := {
  timestamp : string;
  audit_case_id : string;
  audit_officer_id : option string;
  audit_ai_recommendation : string;
  audit_ai_risk_score : Q;
  audit_human_decision : option string;
  audit_officer_notes : option string;
  decision_alignment : string
}.

(** [self.approval_log], and the lines [_log_approval] has printed. *)
Record ApprovalWorkflow := {
  approval_log : list approval;
  printed : list audit_log
}.

(** The three [ValueError]s of [process_human_approval], by their
    message: "Approval request not found for case: ...",
    "Case ... already processed. Status: ...", and
    "Decision must be 'APPROVE' or 'REJECT'". *)
Inductive ValueError :=
| NotFound (case_id : string)
| AlreadyProcessed (case_id : string) (status : DecisionStatus)
| InvalidDecision.

Definition __init__ : ApprovalWorkflow :=
  {| approval_log := []; printed := [] |}.

Definition create_approval_request
    (case_id ai_recommendation : string) (ai_risk_score : Q)
    (ai_explanation : string) (now : string)
  : Run ApprovalWorkflow ValueError approval :=
  let approval_request :=
    {| case_id := case_id;
       ai_recommendation := ai_recommendation;
       ai_risk_score := ai_risk_score;
       ai_explanation := ai_explanation;
       status := PENDING_APPROVAL;
       created_at := now;
       human_decision := None;
       officer_id := None;
       officer_notes := None;
       approved_at := None |} in
  modify (λ self,
    {| approval_log := approval_log self ++ [approval_request];
       printed := printed self |}) ;;
  mret approval_request.

Definition _check_decision_alignment (approval : approval) : string :=
  let ai_rec := ai_recommendation approval in
  let human_dec := human_decision approval in
  if String.eqb ai_rec "URGENT_REVIEW" && opt_str_eqb human_dec "APPROVE"
  then "OVERRIDE"
  else if String.eqb ai_rec "ROUTINE_REVIEW" && opt_str_eqb human_dec "REJECT"
  then "OVERRIDE"
  else "ALIGNED".

Definition _log_approval (approval : approval) (now : string)
  : Run ApprovalWorkflow ValueError unit :=
  let audit_log :=
    {| timestamp := now;
       audit_case_id := Workflow.case_id approval;
       audit_officer_id := Workflow.officer_id approval;
       audit_ai_recommendation := Workflow.ai_recommendation approval;
       audit_ai_risk_score := Workflow.ai_risk_score approval;
       audit_human_decision := Workflow.human_decision approval;
       audit_officer_notes := Workflow.officer_notes approval;
       decision_alignment := _check_decision_alignment approval |} in
  modify (λ self,
    {| approval_log := approval_log self;
       printed := printed self ++ [audit_log] |}).

(** The five assignments to the found dict, in the order of the source. *)
Definition record_decision (approval : approval)
    (officer_id decision : string) (officer_notes : option string)
    (now : string) : Workflow.approval :=
  {| case_id := Workflow.case_id approval;
     ai_recommendation := Workflow.ai_recommendation approval;
     ai_risk_score := Workflow.ai_risk_score approval;
     ai_explanation := Workflow.ai_explanation approval;
     status := if String.eqb decision "APPROVE" then APPROVED else REJECTED;
     created_at := Workflow.created_at approval;
     human_decision := Some decision;
     officer_id := Some officer_id;
     officer_notes := officer_notes;
     approved_at := Some now |}.

Definition process_human_approval
    (case_id officer_id decision : string) (officer_notes : option string)
    (now_approved now_audit : string)
  : Run ApprovalWorkflow ValueError approval :=
  self ← get;
  match list_find (λ a, Workflow.case_id a = case_id) (approval_log self) with
  | None => raise (NotFound case_id)
  | Some (i, approval) =>
    if negb (bool_decide (status approval = PENDING_APPROVAL)) then
      raise (AlreadyProcessed case_id (status approval))
    else if negb (str_in decision ["APPROVE"; "REJECT"]) then
      raise InvalidDecision
    else
      let approval :=
        record_decision approval officer_id decision officer_notes
                        now_approved in
      modify (λ self,
        {| approval_log := <[i := approval]> (approval_log self);
           printed := printed self |}) ;;
      _log_approval approval now_audit ;;
      mret approval
  end.

Definition get_pending_approvals (self : ApprovalWorkflow) : list approval :=
  filter (λ a, status a = PENDING_APPROVAL) (approval_log self).

Definition get_approval_history (self : ApprovalWorkflow)
    (case_id : option string) : list approval :=
  if truthy case_id then
    filter (λ a, Some (Workflow.case_id a) = case_id) (approval_log self)
  else approval_log self.

End Workflow.

(** * Exceptions and request bodies shared by the backend modules *)

(** A Python exception, by class; [str_exn] is [str(e)]. *)
Inductive Exception :=
| ValueError (msg : string)
| AttributeError (msg : string)
| IndexError (msg : string)
| TypeError (msg : string)
| OtherError (msg : string).

Definition str_exn (e : Exception) : string :=
  match e with
  | ValueError m | AttributeError m | IndexError m | TypeError m
  | OtherError m => m
  end.

(** The pydantic model [CitizenCase]; [case.dict()] keeps these keys, and
    a one-element list of it is the one-row dataframe. *)
Module CitizenCase.
Record t := {
  citizen_id : string;
  income : Q;
  last_document_update_months : Q;
  scheme_type : string;
  past_benefit_interruptions : Z
}.
End CitizenCase.

(** * backend/models.py and step2_ml_risk_model.py *)

Module Models.

(** ** sklearn's LabelEncoder

    [fit_transform(y)] sets [classes_] to the sorted distinct values of
    [y] and returns, for each value, its position in [classes_]. *)

Record LabelEncoder := { classes_ : option (list string) }.

Fixpoint insert_class (x : string) (classes : list string) : list string :=
  match classes with
  | [] => [x]
  | c :: rest =>
    match String.compare x c with
    | Lt => x :: c :: rest
    | Eq => c :: rest
    | Gt => c :: insert_class x rest
    end
  end.

Definition np_unique (y : list string) : list string :=
  foldr insert_class [] y.

Definition class_index (classes : list string) (v : string) : nat :=
  default 0%nat (fst <$> list_find (λ c, c = v) classes).

Definition fit_transform (y : list string) : LabelEncoder * list nat :=
  let classes := np_unique y in
  ({| classes_ := Some classes |}, class_index classes <$> y).

(** ** The fitted estimators

    A fitted random forest is the function [predict] computes on a
    feature matrix (or the exception it raises on a matrix it does not
    accept) and, for the classifier, its importance vector. *)

Definition ndarray := list (list Q).

Record Classifier := {
  clf_predict : ndarray → Exception + list string;
  feature_importances_ : list Q
}.

Record Regressor := {
  reg_predict : ndarray → Exception + list Q
}.

Record WelfareRiskModel := {
  classifier : option Classifier;
  regressor : option Regressor;
  label_encoder : LabelEncoder;
  feature_names : option (list string);
  is_trained : bool
}.

(** [WelfareRiskModel()] of backend/models.py. *)
Definition __init__ : WelfareRiskModel :=
  {| classifier := None;
     regressor := None;
     label_encoder := {| classes_ := None |};
     feature_names := None;
     is_trained := false |}.

(** The bundle [joblib.load] returns, and [load_model] on it. *)
Record model_data := {
  md_classifier : Classifier;
  md_regressor : Regressor;
  md_label_encoder : LabelEncoder;
  md_feature_names : list string
}.

Definition load_model (self : WelfareRiskModel) (bundle : model_data)
  : WelfareRiskModel :=
  {| classifier := Some (md_classifier bundle);
     regressor := Some (md_regressor bundle);
     label_encoder := md_label_encoder bundle;
     feature_names := Some (md_feature_names bundle);
     is_trained := true |}.

Definition features : list string :=
  ["income"; "last_document_update_months"; "scheme_type_encoded";
   "past_benefit_interruptions"].

(** [df_encoded[features].values]: one row of numbers per case. *)
Definition feature_row (c : CitizenCase.t) (scheme_type_encoded : nat) : list Q :=
  [CitizenCase.income c; CitizenCase.last_document_update_months c;
   inject_Z (Z.of_nat scheme_type_encoded);
   inject_Z (CitizenCase.past_benefit_interruptions c)].

(** Refits [self.label_encoder] on the column of this very dataframe and
    sets [self.feature_names]; returns the feature matrix. *)
Definition prepare_features (df : list CitizenCase.t)
  : Run WelfareRiskModel Exception ndarray :=
  self ← get;
  let '(encoder, scheme_type_encoded) := fit_transform (CitizenCase.scheme_type <$> df) in
  put {| classifier := classifier self;
         regressor := regressor self;
         label_encoder := encoder;
         feature_names := Some features;
         is_trained := is_trained self |} ;;
  mret (zip_with feature_row df scheme_type_encoded).

(** [np.clip(a, a_min, a_max)] is [minimum(a_max, maximum(a, a_min))]. *)
Definition np_clip (a : list Q) (a_min a_max : Q) : list Q :=
  (λ x, Qmin a_max (Qmax x a_min)) <$> a.

Definition None_has_no (attr : string) : Exception :=
  AttributeError ("'NoneType' object has no attribute '" ++ attr ++ "'").

Definition predict_risk (self : WelfareRiskModel) (X : ndarray)
  : Exception + (list string * list Q * list Q) :=
  if negb (is_trained self) then
    inl (ValueError "Model must be trained before prediction!")
  else
    match classifier self with
    | None => inl (None_has_no "predict")
    | Some clf =>
      match clf_predict clf X with
      | inl e => inl e
      | inr risk_levels =>
        match regressor self with
        | None => inl (None_has_no "predict")
        | Some reg =>
          match reg_predict reg X with
          | inl e => inl e
          | inr risk_scores =>
            let risk_scores := np_clip risk_scores 0 100 in
            let feature_importance := feature_importances_ clf in
            inr (risk_levels, risk_scores, feature_importance)
          end
        end
      end
    end.

(** [reasons[name] = {'value': ..., 'importance': ...}], in the order the
    keys are set. *)
Record reason := { value : Q; importance : Q }.

Fixpoint zip3 (names : list string) (values imps : list Q)
  : list (string * reason) :=
  match names, values, imps with
  | name :: names, v :: values, imp :: imps =>
    (name, {| value := v; importance := imp |}) :: zip3 names values imps
  | _, _, _ => []
  end.

Definition get_model_reasons (self : WelfareRiskModel) (X : ndarray)
    (feature_names : option (list string))
  : Exception + list (string * reason) :=
  if negb (is_trained self) then inr []
  else
    match classifier self with
    | None => inl (None_has_no "feature_importances_")
    | Some clf =>
      let importance := feature_importances_ clf in
      match X with
      | [] => inl (IndexError "index 0 is out of bounds for axis 0 with size 0")
      | X0 :: _ =>
        match feature_names with
        | None => inl (TypeError "'NoneType' object is not iterable")
        | Some feature_names => inr (zip3 feature_names X0 importance)
        end
      end
    end.

End Models.

(** * Python text formatting used by the explanation engine *)

(** [int(x)]: truncation towards zero. *)
Definition py_int (x : Q) : Z := Z.quot (Qnum x) (Zpos (Qden x)).

(** [x >= y] on numbers. *)
Definition Qge_bool (x y : Q) : bool := Qle_bool y x.

(** Rounding to the nearest integer, ties to even, as [format] rounds
    the exact value of a float. *)
Definition round_half_even (x : Q) : Z :=
  let n := Qnum x in
  let d := Zpos (Qden x) in
  let f := (n / d)%Z in
  let r2 := (2 * (n mod d))%Z in
  if (r2 <? d)%Z then f
  else if (d <? r2)%Z then (f + 1)%Z
  else if Z.even f then f else (f + 1)%Z.

Fixpoint zeros (n : nat) : string :=
  match n with
  | O => ""
  | S n => "0" ++ zeros n
  end.

Definition pad_zeros (width : nat) (s : string) : string :=
  zeros (width - String.length s) ++ s.

(** A comma after every third digit from the right; [digits_rev] is the
    integer part read from its last digit, [k] the digits already put in
    the current group. *)
Fixpoint group_rev (digits_rev : string) (k : nat) : string :=
  match digits_rev with
  | EmptyString => ""
  | String c rest =>
    match k, rest with
    | 2%nat, String _ _ => String c (String "," (group_rev rest 0))
    | _, _ => String c (group_rev rest (S k))
    end
  end.

Definition group_thousands (digits : string) : string :=
  String.rev (group_rev (String.rev digits) 0).

(** [f"{x:.Nf}"] and, with [comma], [f"{x:,.Nf}"]. *)
Definition format_f (prec : nat) (comma : bool) (x : Q) : string :=
  let p := (10 ^ Z.of_nat prec)%Z in
  let scaled := round_half_even (Qabs x * inject_Z p) in
  let int_part := pretty (scaled / p)%Z in
  let frac_part := pad_zeros prec (pretty (scaled mod p)%Z) in
  (if negb (Qle_bool 0 x) then "-" else "")
  ++ (if comma then group_thousands int_part else int_part)
  ++ "." ++ frac_part.

(** [s.upper()] on ASCII letters. *)
Definition upper_char (c : ascii) : ascii :=
  let n := nat_of_ascii c in
  if (97 <=? n)%nat && (n <=? 122)%nat then ascii_of_nat (n - 32) else c.

Fixpoint upper (s : string) : string :=
  match s with
  | EmptyString => ""
  | String c rest => String (upper_char c) (upper rest)
  end.

(** [s.strip()] on ASCII white space. *)
Definition isspace (c : ascii) : bool :=
  let n := nat_of_ascii c in
  ((9 <=? n)%nat && (n <=? 13)%nat) || ((28 <=? n)%nat && (n <=? 32)%nat).

Fixpoint lstrip (s : string) : string :=
  match s with
  | EmptyString => ""
  | String c rest => if isspace c then lstrip rest else s
  end.

Definition strip (s : string) : string :=
  String.rev (lstrip (String.rev (lstrip s))).

Definition nl : string := String (ascii_of_nat 10) "".

(** * backend/explanation.py *)

Module Explanation.

(** The hosted text generation service as the engine sees it:
    [client.chat.completions.create(model, messages, max_tokens=300,
    temperature=0.7)] returns a response or raises; of a response only
    [choices[i].message.content] is read. *)
Record ChatCompletion := { choices : list (option string) }.

Record AzureOpenAI := {
  chat_completions_create :
    string → list (string * string) → Exception + ChatCompletion
}.

Record ExplanationEngine := {
  client : option AzureOpenAI;
  deployment_name : option string
}.

(** What [__init__] reads: whether the SDK import succeeded, the three
    environment variables, and the SDK's constructor
    [AzureOpenAI(api_key, api_version, azure_endpoint)]. *)
Record Environment := {
  AZURE_OPENAI_AVAILABLE : bool;
  AZURE_OPENAI_ENDPOINT : option string;
  AZURE_OPENAI_API_KEY : option string;
  AZURE_OPENAI_DEPLOYMENT_NAME : option string;
  new_AzureOpenAI : string → string → string → Exception + AzureOpenAI
}.

Definition __init__ (env : Environment) : ExplanationEngine :=
  if AZURE_OPENAI_AVAILABLE env then
    let endpoint := AZURE_OPENAI_ENDPOINT env in
    let api_key := AZURE_OPENAI_API_KEY env in
    let deployment_name :=
      Some (default "gpt-4" (AZURE_OPENAI_DEPLOYMENT_NAME env)) in
    match endpoint, api_key with
    | Some endpoint, Some api_key =>
      if negb (String.eqb endpoint "") && negb (String.eqb api_key "") then
        match new_AzureOpenAI env api_key "2024-02-15-preview" endpoint with
        | inr c => {| client := Some c; deployment_name := deployment_name |}
        | inl _ => {| client := None; deployment_name := deployment_name |}
        end
      else {| client := None; deployment_name := deployment_name |}
    | _, _ => {| client := None; deployment_name := deployment_name |}
    end
  else {| client := None; deployment_name := None |}.

Definition create_explanation_prompt (risk_score : Q) (risk_level : string)
    (model_reasons : list (string * Models.reason))
    (citizen_data : CitizenCase.t) : string :=
  "Generate a clear, empathetic explanation for a welfare case decision." ++ nl
  ++ nl
  ++ "Risk Score: " ++ format_f 1 false risk_score ++ "/100" ++ nl
  ++ "Risk Level: " ++ upper risk_level ++ nl
  ++ "Income: ₹" ++ format_f 2 true (CitizenCase.income citizen_data) ++ nl
  ++ "Last Document Update: "
  ++ format_f 1 false (CitizenCase.last_document_update_months citizen_data)
  ++ " months ago" ++ nl
  ++ "Scheme Type: " ++ CitizenCase.scheme_type citizen_data ++ nl
  ++ "Past Interruptions: "
  ++ pretty (CitizenCase.past_benefit_interruptions citizen_data) ++ nl
  ++ nl
  ++ "Write a brief, citizen-friendly explanation (2-3 sentences) that:" ++ nl
  ++ "1. Explains what the risk score means in simple terms" ++ nl
  ++ "2. Provides clear next steps" ++ nl
  ++ "3. Uses respectful, helpful tone" ++ nl
  ++ "Avoid technical jargon.".

Definition _generate_mock_explanation (risk_score : Q) (risk_level : string)
  : string :=
  if Qge_bool risk_score 60 then
    "Your welfare case shows a high risk score ("
    ++ pretty (py_int risk_score)
    ++ "). Please update your documentation within 30 days. A case officer will review your file and contact you within 15 business days."
  else if Qge_bool risk_score 30 then
    "Your case shows a moderate risk score ("
    ++ pretty (py_int risk_score)
    ++ "). Please verify your income information is up to date. A case officer will review your application within 10 business days."
  else
    "Your case shows a low risk score ("
    ++ pretty (py_int risk_score)
    ++ "). Your application will proceed to final review. You should receive a decision within 5-7 business days.".

Definition system_content : string :=
  "You are a helpful assistant explaining welfare case decisions in simple, clear language.".

(** The body of the [try]: build the prompt, call the service, read
    [response.choices[0].message.content.strip()]. *)
Definition ask_azure_openai (c : AzureOpenAI) (deployment_name : string)
    (risk_score : Q) (risk_level : string)
    (model_reasons : list (string * Models.reason))
    (citizen_data : CitizenCase.t) : Exception + string :=
  let prompt :=
    create_explanation_prompt risk_score risk_level model_reasons
                              citizen_data in
  match chat_completions_create c deployment_name
          [("system", system_content); ("user", prompt)] with
  | inl e => inl e
  | inr response =>
    match choices response with
    | [] => inl (IndexError "list index out of range")
    | None :: _ => inl (Models.None_has_no "strip")
    | Some content :: _ => inr (strip content)
    end
  end.

(** The dict [generate_explanation] returns. *)
Record explanation_result := {
  explanation : string;
  recommended_action : string;
  action_description : string;
  risk_score : Q;
  risk_level : string
}.

Definition generate_explanation (self : ExplanationEngine)
    (risk_score : Q) (risk_level : string)
    (model_reasons : list (string * Models.reason))
    (citizen_data : CitizenCase.t) : explanation_result :=
  let explanation_text :=
    match client self with
    | Some c =>
      if truthy (deployment_name self) then
        match ask_azure_openai c (default "" (deployment_name self))
                risk_score risk_level model_reasons citizen_data with
        | inr text => text
        | inl _ => _generate_mock_explanation risk_score risk_level
        end
      else _generate_mock_explanation risk_score risk_level
    | None => _generate_mock_explanation risk_score risk_level
    end in
  let '(recommended_action, action_description) :=
    if String.eqb risk_level "high" then
      ("URGENT_REVIEW",
       "Case requires immediate officer review and citizen contact")
    else if String.eqb risk_level "medium" then
      ("STANDARD_REVIEW",
       "Case requires standard officer review and documentation update request")
    else
      ("ROUTINE_REVIEW",
       "Case can proceed with routine officer verification") in
  {| explanation := explanation_text;
     recommended_action := recommended_action;
     action_description := action_description;
     risk_score := risk_score;
     risk_level := risk_level |}.

End Explanation.

(** * backend/app.py and step4_backend_api.py

    The two files define the same handlers over the same two global
    lists; what follows is written after backend/app.py. *)

Module App.

Module ApprovalRequest.
Record t := {
  case_id : string;
  officer_id : string;
  decision : string;
  officer_notes : option string
}.
End ApprovalRequest.

Module ApprovalResponse.
Record t := {
  case_id : string;
  decision : string;
  officer_id : string;
  timestamp : string;
  officer_notes : option string
}.
End ApprovalResponse.

(** The dict appended to [approvals_db]. *)
Module ApprovalRecord.
Record t := {
  case_id : string;
  officer_id : string;
  decision : string;
  officer_notes : option string;
  timestamp : string;
  ai_recommendation : string;
  ai_risk_score : Q
}.
End ApprovalRecord.

(** A dict of [cases_db]: [CaseAnalysisResponse.dict()], to which
    [approve_case] adds three keys ([None] while the key is absent). *)
Record Case := {
  case_id : string;
  citizen_id : string;
  risk_score : Q;
  risk_level : string;
  explanation : string;
  recommended_action : string;
  action_description : string;
  model_reasons : list (string * Models.reason);
  timestamp : string;
  status : string;
  officer_id : option string;
  officer_notes : option (option string);
  approval_timestamp : option string
}.

(** The module's globals. *)
Record State := {
  risk_model : option Models.WelfareRiskModel;
  explanation_engine : option Explanation.ExplanationEngine;
  cases_db : list Case;
  approvals_db : list ApprovalRecord.t
}.

(** What a request can end with instead of its response: an
    [HTTPException] of the handler, or the 422 the framework answers
    when the body does not fit its pydantic model. *)
Inductive HTTPError :=
| HTTPException (status_code : Z) (detail : string)
| RequestValidationError.

(** The globals when the application starts serving. *)
Definition startup (rm : option Models.WelfareRiskModel)
    (ee : option Explanation.ExplanationEngine) : State :=
  {| risk_model := rm; explanation_engine := ee;
     cases_db := []; approvals_db := [] |}.

Definition set_risk_model (rm : Models.WelfareRiskModel) (s : State) : State :=
  {| risk_model := Some rm;
     explanation_engine := explanation_engine s;
     cases_db := cases_db s;
     approvals_db := approvals_db s |}.

Definition set_cases_db (cases : list Case) (s : State) : State :=
  {| risk_model := risk_model s;
     explanation_engine := explanation_engine s;
     cases_db := cases;
     approvals_db := approvals_db s |}.

Definition set_approvals_db (approvals : list ApprovalRecord.t) (s : State)
  : State :=
  {| risk_model := risk_model s;
     explanation_engine := explanation_engine s;
     cases_db := cases_db s;
     approvals_db := approvals |}.

(** A method call on the global [risk_model] object. *)
Definition on_risk_model {A} (rm : Models.WelfareRiskModel)
    (m : Run Models.WelfareRiskModel Exception A) : Run State Exception A :=
  λ s, let '(r, rm') := m rm in (r, set_risk_model rm' s).

(** A call that touches no global. *)
Definition call {S E A} (r : E + A) : Run S E A := λ s, (r, s).

(** [xs[0]]. *)
Definition item0 {A} (xs : list A) : Exception + A :=
  match xs with
  | x :: _ => inr x
  | [] => inl (IndexError "index 0 is out of bounds for axis 0 with size 0")
  end.

(** [try: body  except Exception as e: raise handler(e)]. *)
Definition try_except {S E E' A} (body : Run S E A) (handler : E → E')
  : Run S E' A :=
  λ s, match body s with
       | (inr a, s') => (inr a, s')
       | (inl e, s') => (inl (handler e), s')
       end.

(** [f"CASE_{datetime.now().strftime('%Y%m%d%H%M%S')}_{len(cases_db)}"];
    [now] is the text [strftime] gives. *)
Definition new_case_id (now : string) (len_cases_db : nat) : string :=
  "CASE_" ++ now ++ "_" ++ pretty len_cases_db.

Definition analyze_case (request : CitizenCase.t) (now_id now_ts : string)
  : Run State HTTPError Case :=
  self ← get;
  match risk_model self, explanation_engine self with
  | Some rm, Some ee =>
    try_except
      (let case_data := request in
       let df := [case_data] in
       X ← on_risk_model rm (Models.prepare_features df);
       self ← get;
       let rm := default rm (risk_model self) in
       '(risk_levels, risk_scores, _) ← call (Models.predict_risk rm X);
       risk_level ← call (item0 risk_levels);
       risk_score ← call (item0 risk_scores);
       model_reasons ←
         call (Models.get_model_reasons rm X (Models.feature_names rm));
       let explanation_result :=
         Explanation.generate_explanation ee risk_score risk_level
           model_reasons case_data in
       let case_id := new_case_id now_id (length (cases_db self)) in
       let response :=
         {| case_id := case_id;
            citizen_id := CitizenCase.citizen_id case_data;
            risk_score := risk_score;
            risk_level := risk_level;
            explanation := Explanation.explanation explanation_result;
            recommended_action :=
              Explanation.recommended_action explanation_result;
            action_description :=
              Explanation.action_description explanation_result;
            model_reasons := model_reasons;
            timestamp := now_ts;
            status := "PENDING_APPROVAL";
            officer_id := None;
            officer_notes := None;
            approval_timestamp := None |} in
       modify (λ self, set_cases_db (cases_db self ++ [response]) self) ;;
       mret response)
      (λ e, HTTPException 500 ("Error analyzing case: " ++ str_exn e))
  | _, _ => raise (HTTPException 503 "Models not loaded")
  end.

Definition get_cases (status risk_level : option string) (self : State)
  : list Case :=
  let filtered_cases := cases_db self in
  let filtered_cases :=
    if truthy status
    then filter (λ c, Some (App.status c) = status) filtered_cases
    else filtered_cases in
  let filtered_cases :=
    if truthy risk_level
    then filter (λ c, Some (App.risk_level c) = risk_level) filtered_cases
    else filtered_cases in
  filtered_cases.

Definition get_case (case_id : string) (self : State) : HTTPError + Case :=
  match list_find (λ c, App.case_id c = case_id) (cases_db self) with
  | None => inl (HTTPException 404 "Case not found")
  | Some (_, case) => inr case
  end.

(** The four assignments [approve_case] makes to the found dict. *)
Definition record_decision (case : Case) (request : ApprovalRequest.t)
    (now : string) : Case :=
  {| case_id := case_id case;
     citizen_id := citizen_id case;
     risk_score := risk_score case;
     risk_level := risk_level case;
     explanation := explanation case;
     recommended_action := recommended_action case;
     action_description := action_description case;
     model_reasons := model_reasons case;
     timestamp := timestamp case;
     status := ApprovalRequest.decision request;
     officer_id := Some (ApprovalRequest.officer_id request);
     officer_notes := Some (ApprovalRequest.officer_notes request);
     approval_timestamp := Some now |}.

Definition approve_case (request : ApprovalRequest.t)
    (now_case now_record : string) : Run State HTTPError ApprovalResponse.t :=
  self ← get;
  match list_find (λ c, case_id c = ApprovalRequest.case_id request)
                  (cases_db self) with
  | None => raise (HTTPException 404 "Case not found")
  | Some (i, case) =>
    if negb (String.eqb (status case) "PENDING_APPROVAL") then
      raise (HTTPException 400
               ("Case already processed. Current status: " ++ status case))
    else
      let case := record_decision case request now_case in
      modify (λ self, set_cases_db (<[i := case]> (cases_db self)) self) ;;
      let approval_record :=
        {| ApprovalRecord.case_id := ApprovalRequest.case_id request;
           ApprovalRecord.officer_id := ApprovalRequest.officer_id request;
           ApprovalRecord.decision := ApprovalRequest.decision request;
           ApprovalRecord.officer_notes :=
             ApprovalRequest.officer_notes request;
           ApprovalRecord.timestamp := now_record;
           ApprovalRecord.ai_recommendation := recommended_action case;
           ApprovalRecord.ai_risk_score := risk_score case |} in
      modify (λ self,
        set_approvals_db (approvals_db self ++ [approval_record]) self) ;;
      mret {| ApprovalResponse.case_id := ApprovalRequest.case_id request;
              ApprovalResponse.decision := ApprovalRequest.decision request;
              ApprovalResponse.officer_id :=
                ApprovalRequest.officer_id request;
              ApprovalResponse.timestamp :=
                ApprovalRecord.timestamp approval_record;
              ApprovalResponse.officer_notes :=
                ApprovalRequest.officer_notes request |}
  end.

Definition get_approvals (self : State) : list ApprovalRecord.t :=
  approvals_db self.

(** The dict [health_check] returns. *)
Record Health := {
  health_status : string;
  models_loaded : bool;
  cases_count : nat;
  approvals_count : nat
}.

Definition health_check (self : State) : Health :=
  {| health_status := "healthy";
     models_loaded :=
       bool_decide (risk_model self ≠ None)
       && bool_decide (explanation_engine self ≠ None);
     cases_count := length (cases_db self);
     approvals_count := length (approvals_db self) |}.

(** ** The HTTP surface

    The framework builds the handler's arguments from the request and
    answers 422 without calling the handler when a field constraint of
    the pydantic model fails. *)

(** [CitizenCase]: [income > 0], [last_document_update_months >= 0],
    [scheme_type] matching [^(pension|subsidy|ration)$],
    [0 <= past_benefit_interruptions <= 10]. *)
Definition valid_CitizenCase (c : CitizenCase.t) : bool :=
  negb (Qle_bool (CitizenCase.income c) 0)
  && Qle_bool 0 (CitizenCase.last_document_update_months c)
  && str_in (CitizenCase.scheme_type c) ["pension"; "subsidy"; "ration"]
  && (0 <=? CitizenCase.past_benefit_interruptions c)%Z
  && (CitizenCase.past_benefit_interruptions c <=? 10)%Z.

(** [ApprovalRequest]: [decision] matching [^(APPROVE|REJECT)$]. *)
Definition valid_ApprovalRequest (r : ApprovalRequest.t) : bool :=
  str_in (ApprovalRequest.decision r) ["APPROVE"; "REJECT"].

Definition POST_analyze_case (body : CitizenCase.t) (now_id now_ts : string)
  : Run State HTTPError Case :=
  if valid_CitizenCase body then analyze_case body now_id now_ts
  else raise RequestValidationError.

Definition POST_approve_case (body : ApprovalRequest.t)
    (now_case now_record : string) : Run State HTTPError ApprovalResponse.t :=
  if valid_ApprovalRequest body then approve_case body now_case now_record
  else raise RequestValidationError.

(** The query string of GET /cases: the values it gives for [status],
    [risk_level] and [limit].  The handler of these two files declares
    [status] and [risk_level] only; the framework passes those and drops
    every other query parameter. *)
Record CasesQuery := {
  q_status : option string;
  q_risk_level : option string;
  q_limit : option Z
}.

Definition GET_cases (q : CasesQuery) (self : State) : list Case :=
  get_cases (q_status q) (q_risk_level q) self.

(** ** Sequences of requests *)

Inductive request :=
| AnalyzeCase (body : CitizenCase.t) (now_id now_ts : string)
| ApproveCase (body : ApprovalRequest.t) (now_case now_record : string).

Definition serve (s : State) (r : request) : State :=
  match r with
  | AnalyzeCase body now_id now_ts =>
    snd (POST_analyze_case body now_id now_ts s)
  | ApproveCase body now_case now_record =>
    snd (POST_approve_case body now_case now_record s)
  end.

Definition reachable (s : State) : Prop :=
  ∃ rm ee requests, s = foldl serve (startup rm ee) requests.

End App.

(** * backend/main.py: GET /cases

    The third backend keeps the same case dicts; its handler also
    declares [limit] (default 100), sorts by timestamp, newest first,
    and slices. *)

Module Main.

(** [sorted(cases, key=timestamp, reverse=True)]: cases of equal
    timestamp keep the order they had. *)
Fixpoint insert_newest (c : App.Case) (sorted : list App.Case)
  : list App.Case :=
  match sorted with
  | [] => [c]
  | d :: rest =>
    if String.ltb (App.timestamp c) (App.timestamp d)
    then d :: insert_newest c rest
    else c :: d :: rest
  end.

Definition sorted_newest_first (cases : list App.Case) : list App.Case :=
  foldr insert_newest [] cases.

(** [xs[:limit]]: a negative limit counts from the end, [None] keeps all. *)
Definition slice_to {A} (limit : option Z) (xs : list A) : list A :=
  match limit with
  | None => xs
  | Some n =>
    if (0 <=? n)%Z then take (Z.to_nat n) xs
    else take (length xs - Z.to_nat (- n)) xs
  end.

Definition get_cases (status risk_level : option string) (limit : option Z)
    (cases_db : list App.Case) : list App.Case :=
  let filtered_cases := cases_db in
  let filtered_cases :=
    if truthy status
    then filter (λ c, Some (App.status c) = status) filtered_cases
    else filtered_cases in
  let filtered_cases :=
    if truthy risk_level
    then filter (λ c, Some (App.risk_level c) = risk_level) filtered_cases
    else filtered_cases in
  slice_to limit (sorted_newest_first filtered_cases).

Definition GET_cases (q : App.CasesQuery) (cases_db : list App.Case)
  : list App.Case :=
  get_cases (App.q_status q) (App.q_risk_level q)
            (Some (default 100%Z (App.q_limit q))) cases_db.

End Main.

(** * step2_ml_risk_model.py: saving and loading

    The file on disk is the pickled dict, or is missing. *)

Module Step2.

Record model_file := {
  f_classifier : option Models.Classifier;
  f_regressor : option Models.Regressor;
  f_label_encoder : Models.LabelEncoder;
  f_feature_names : option (list string)
}.

(** [save_model]: the new content of the file. *)
Definition save_model (self : Models.WelfareRiskModel)
  : Exception + model_file :=
  if negb (Models.is_trained self) then
    inl (ValueError "Model must be trained before saving!")
  else
    inr {| f_classifier := Models.classifier self;
           f_regressor := Models.regressor self;
           f_label_encoder := Models.label_encoder self;
           f_feature_names := Models.feature_names self |}.

Definition load_model (file : option model_file)
  : Run Models.WelfareRiskModel Exception unit :=
  match file with
  | None => raise (OtherError "Model file not found: welfare_risk_model.pkl")
  | Some model_data =>
    put {| Models.classifier := f_classifier model_data;
           Models.regressor := f_regressor model_data;
           Models.label_encoder := f_label_encoder model_data;
           Models.feature_names := f_feature_names model_data;
           Models.is_trained := true |}
  end.

End Step2.

(** * step1_generate_dataset.py

    The random draws are read from outside: one record per row holds
    what numpy's generators return for it. *)

Module Step1.

Definition Qlt_bool (x y : Q) : bool := negb (Qle_bool y x).
Definition Qgt_bool (x y : Q) : bool := negb (Qle_bool x y).

(** [max(a, b)] and [min(a, b)] of Python: the first argument wins a tie. *)
Definition py_max (a b : Q) : Q := if Qgt_bool b a then b else a.
Definition py_min (a b : Q) : Q := if Qlt_bool b a then b else a.

(** [np.maximum], [np.minimum] on one entry. *)
Definition np_maximum (a b : Q) : Q := if Qlt_bool a b then b else a.
Definition np_minimum (a b : Q) : Q := if Qlt_bool b a then b else a.

(** [round(x, ndigits)] and [np.round(x, ndigits)]: to the nearest
    multiple of 10^-ndigits, ties to even. *)
Definition round_to (ndigits : nat) (x : Q) : Q :=
  let p := (10 ^ Z.of_nat ndigits)%Z in
  Qmake (round_half_even (x * inject_Z p)) (Z.to_pos p).

Record draws := {
  base_income : Q;            (* np.random.normal(15000, 5000) *)
  exp_update : Q;             (* np.random.exponential(6) *)
  scheme_choice : string;     (* np.random.choice([...]) *)
  poisson_interruptions : Z;  (* np.random.poisson(0.5) *)
  noise : Q                   (* np.random.normal(0, 10) *)
}.

(** A row of the returned dataframe. *)
Record row := {
  citizen_id : string;
  income : Q;
  last_document_update_months : Q;
  scheme_type : string;
  past_benefit_interruptions : Z;
  risk_score : Q;
  risk_level : string
}.

(** The score of the loop body before rounding, from the columns. *)
Definition raw_score (income last_update : Q) (interruptions : Z)
    (scheme_type : string) (noise : Q) : Q :=
  let score := 0%Z in
  let score :=
    if Qgt_bool income 30000 then (score + 30)%Z
    else if Qlt_bool income 8000 then (score + 20)%Z
    else score in
  let score :=
    if Qgt_bool last_update 12 then (score + 25)%Z
    else if Qgt_bool last_update 6 then (score + 15)%Z
    else score in
  let score := (score + interruptions * 8)%Z in
  let score :=
    if String.eqb scheme_type "pension" && Qgt_bool income 25000
    then (score + 15)%Z else score in
  let score := (inject_Z score + noise)%Q in
  py_max 0 (py_min 100 score).

Definition level_of (score : Q) : string :=
  if Qlt_bool score 30 then "low"
  else if Qlt_bool score 60 then "medium"
  else "high".

(** Row number [i] (from 1) of the dataset. *)
Definition generate_row (i : nat) (d : draws) : row :=
  let income := np_maximum 5000 (base_income d) in
  let last_update := np_minimum (exp_update d) 36 in
  let interruptions := Z.min (poisson_interruptions d) 5 in
  let score :=
    raw_score income last_update interruptions (scheme_choice d) (noise d) in
  {| citizen_id := "CIT_" ++ pad_zeros 6 (pretty i);
     income := round_to 2 income;
     last_document_update_months := round_to 1 last_update;
     scheme_type := scheme_choice d;
     past_benefit_interruptions := interruptions;
     risk_score := round_to 2 score;
     risk_level := level_of score |}.

Definition generate_synthetic_welfare_dataset (rows : list draws) : list row :=
  imap (λ i d, generate_row (S i) d) rows.

(** The request body that carries the fields of a row. *)
Definition to_case (r : row) : CitizenCase.t :=
  {| CitizenCase.citizen_id := citizen_id r;
     CitizenCase.income := income r;
     CitizenCase.last_document_update_months := last_document_update_months r;
     CitizenCase.scheme_type := scheme_type r;
     CitizenCase.past_benefit_interruptions := past_benefit_interruptions r |}.

End Step1.

(** * Vocabulary of the properties, and sample data *)

Section WorkflowTerms.
Import Workflow.

(** The pairs for which the human decision overrides the recommendation,
    as the specification lists them. *)
Definition override_pair (ai_rec : string) (human_dec : option string) : Prop :=
  (ai_rec = "URGENT_REVIEW" ∧ human_dec = Some "APPROVE")
  ∨ (ai_rec = "ROUTINE_REVIEW" ∧ human_dec = Some "REJECT").

(** The record [create_approval_request] builds. *)
Definition pending_request (case_id ai_recommendation : string)
    (ai_risk_score : Q) (ai_explanation now : string) : approval :=
  {| case_id := case_id;
     ai_recommendation := ai_recommendation;
     ai_risk_score := ai_risk_score;
     ai_explanation := ai_explanation;
     status := PENDING_APPROVAL;
     created_at := now;
     human_decision := None;
     officer_id := None;
     officer_notes := None;
     approved_at := None |}.

(** The sentence of the specification under test: creation fails when
    the log already holds a record with that case_id. *)
Definition create_rejects_duplicates : Prop :=
  ∀ self case_id ai_recommendation ai_risk_score ai_explanation now,
    (∃ a, a ∈ approval_log self ∧ Workflow.case_id a = case_id) →
    ∃ e, fst (create_approval_request case_id ai_recommendation
                ai_risk_score ai_explanation now self) = inl e.

(** The audit line printed for a decided record. *)
Definition audit_of (a : approval) (now : string) : audit_log :=
  {| timestamp := now;
     audit_case_id := case_id a;
     audit_officer_id := officer_id a;
     audit_ai_recommendation := ai_recommendation a;
     audit_ai_risk_score := ai_risk_score a;
     audit_human_decision := human_decision a;
     audit_officer_notes := officer_notes a;
     decision_alignment := _check_decision_alignment a |}.

(** [process_human_approval] by cases: the three errors, in the order
    the source tests for them, and the one successful outcome. *)
Inductive process_outcome (self : ApprovalWorkflow)
    (case_id officer_id decision : string) (officer_notes : option string)
    (now_approved now_audit : string)
  : (ValueError + approval) * ApprovalWorkflow → Prop :=
| process_not_found :
    list_find (λ a, Workflow.case_id a = case_id) (approval_log self) = None →
    process_outcome self case_id officer_id decision officer_notes
      now_approved now_audit (inl (NotFound case_id), self)
| process_already i a :
    list_find (λ a, Workflow.case_id a = case_id) (approval_log self)
      = Some (i, a) →
    status a ≠ PENDING_APPROVAL →
    process_outcome self case_id officer_id decision officer_notes
      now_approved now_audit (inl (AlreadyProcessed case_id (status a)), self)
| process_invalid i a :
    list_find (λ a, Workflow.case_id a = case_id) (approval_log self)
      = Some (i, a) →
    status a = PENDING_APPROVAL →
    str_in decision ["APPROVE"; "REJECT"] = false →
    process_outcome self case_id officer_id decision officer_notes
      now_approved now_audit (inl InvalidDecision, self)
| process_decided i a :
    list_find (λ a, Workflow.case_id a = case_id) (approval_log self)
      = Some (i, a) →
    status a = PENDING_APPROVAL →
    str_in decision ["APPROVE"; "REJECT"] = true →
    let a' := record_decision a officer_id decision officer_notes
                              now_approved in
    process_outcome self case_id officer_id decision officer_notes
      now_approved now_audit
      (inr a',
       {| approval_log := <[i := a']> (approval_log self);
          printed := (printed self ++ [audit_of a' now_audit])%list |}).

End WorkflowTerms.

(** A log in which CASE_001 is decided. *)
Definition decided_workflow : Workflow.ApprovalWorkflow :=
  snd (Workflow.process_human_approval "CASE_001" "OFFICER_123" "APPROVE"
         (Some "Reviewed documents") "t1" "t2"
         (snd (Workflow.create_approval_request "CASE_001" "URGENT_REVIEW"
                 (755 # 10) "Your case needs review" "t0"
                 Workflow.__init__))).

(** A trained model whose regressor answers outside the range. *)
Definition toy_model : Models.WelfareRiskModel :=
  {| Models.classifier :=
       Some {| Models.clf_predict := λ X, inr ((λ _, "high") <$> X);
               Models.feature_importances_ := [1 # 4; 1 # 4; 1 # 4; 1 # 4] |};
     Models.regressor :=
       Some {| Models.reg_predict :=
                 λ X, inr ((λ row, default 0%Q (row !! 0%nat)) <$> X) |};
     Models.label_encoder := {| Models.classes_ := None |};
     Models.feature_names := None;
     Models.is_trained := true |}.

Section ExplanationTerms.
Import Explanation.

(** The three fallback messages; [n] is the score cut to an integer. *)
Definition high_template (n : Z) : string :=
  "Your welfare case shows a high risk score (" ++ pretty n
  ++ "). Please update your documentation within 30 days. A case officer will review your file and contact you within 15 business days.".

Definition moderate_template (n : Z) : string :=
  "Your case shows a moderate risk score (" ++ pretty n
  ++ "). Please verify your income information is up to date. A case officer will review your application within 10 business days.".

Definition low_template (n : Z) : string :=
  "Your case shows a low risk score (" ++ pretty n
  ++ "). Your application will proceed to final review. You should receive a decision within 5-7 business days.".

(** The ways the text generation service fails the engine: there is no
    client (SDK missing, credentials missing, constructor raised), no
    deployment name, or the attempt raises (the call itself, or reading
    the text out of its response). *)
Inductive service_fails (self : ExplanationEngine) (risk_score : Q)
    (risk_level : string) (model_reasons : list (string * Models.reason))
    (citizen_data : CitizenCase.t) : Prop :=
| no_client : client self = None →
    service_fails self risk_score risk_level model_reasons citizen_data
| no_deployment_name : truthy (deployment_name self) = false →
    service_fails self risk_score risk_level model_reasons citizen_data
| attempt_raises c d e :
    client self = Some c → deployment_name self = Some d →
    ask_azure_openai c d risk_score risk_level model_reasons citizen_data
      = inl e →
    service_fails self risk_score risk_level model_reasons citizen_data.

End ExplanationTerms.

(** An engine whose client always raises, as with a wrong key. *)
Definition failing_engine : Explanation.ExplanationEngine :=
  {| Explanation.client :=
       Some {| Explanation.chat_completions_create :=
                 λ _ _, inl (OtherError "401 Unauthorized") |};
     Explanation.deployment_name := Some "gpt-4" |}.

Definition sample_case : CitizenCase.t :=
  {| CitizenCase.citizen_id := "CIT_0001";
     CitizenCase.income := 35000 # 1;
     CitizenCase.last_document_update_months := 18 # 1;
     CitizenCase.scheme_type := "pension";
     CitizenCase.past_benefit_interruptions := 3 |}.

Section GetCasesTerms.
Import App.

(** A filter of the query accepts a value when it is absent or empty, or
    equal to the value. *)
Definition filter_accepts (wanted : option string) (actual : string) : Prop :=
  truthy wanted = false ∨ wanted = Some actual.

Definition case_matches (q : CasesQuery) (c : Case) : Prop :=
  filter_accepts (q_status q) (status c)
  ∧ filter_accepts (q_risk_level q) (risk_level c).

Global Instance filter_accepts_dec wanted actual :
  Decision (filter_accepts wanted actual).
Proof. unfold filter_accepts. apply _. Defined.

Global Instance case_matches_dec q c : Decision (case_matches q c).
Proof. unfold case_matches. apply _. Defined.

Definition stored_case (case_id timestamp status risk_level : string) : Case :=
  {| case_id := case_id; citizen_id := "CIT_0001"; risk_score := 755 # 10;
     risk_level := risk_level; explanation := "text";
     recommended_action := "URGENT_REVIEW"; action_description := "review";
     model_reasons := []; timestamp := timestamp; status := status;
     officer_id := None; officer_notes := None; approval_timestamp := None |}.

Definition two_cases : State :=
  {| risk_model := None; explanation_engine := None;
     cases_db := [stored_case "CASE_1_0" "t1" "PENDING_APPROVAL" "high";
                  stored_case "CASE_2_1" "t2" "PENDING_APPROVAL" "high"];
     approvals_db := [] |}.

(** The sentence of the specification under test: a limit given in the
    query bounds the number of cases in the response. *)
Definition get_cases_truncates : Prop :=
  ∀ (q : CasesQuery) (self : State) (n : Z),
    q_limit q = Some n → (Z.of_nat (length (GET_cases q self)) ≤ n)%Z.

End GetCasesTerms.

Section CaseIdsTerms.

Fixpoint has_char (c : ascii) (s : string) : bool :=
  match s with
  | EmptyString => false
  | String d rest => if Ascii.eqb c d then true else has_char c rest
  end.

End CaseIdsTerms.

Section AppTerms.
Import App.

(** The audit record and the response [approve_case] builds. *)
Definition approval_record_of (request : ApprovalRequest.t) (case : Case)
    (now_record : string) : ApprovalRecord.t :=
  {| ApprovalRecord.case_id := ApprovalRequest.case_id request;
     ApprovalRecord.officer_id := ApprovalRequest.officer_id request;
     ApprovalRecord.decision := ApprovalRequest.decision request;
     ApprovalRecord.officer_notes := ApprovalRequest.officer_notes request;
     ApprovalRecord.timestamp := now_record;
     ApprovalRecord.ai_recommendation := recommended_action case;
     ApprovalRecord.ai_risk_score := risk_score case |}.

Definition approval_response_of (request : ApprovalRequest.t)
    (now_record : string) : ApprovalResponse.t :=
  {| ApprovalResponse.case_id := ApprovalRequest.case_id request;
     ApprovalResponse.decision := ApprovalRequest.decision request;
     ApprovalResponse.officer_id := ApprovalRequest.officer_id request;
     ApprovalResponse.timestamp := now_record;
     ApprovalResponse.officer_notes := ApprovalRequest.officer_notes request |}.

Definition already_processed (status : string) : HTTPError :=
  HTTPException 400 ("Case already processed. Current status: " ++ status).

(** The approval records stored for a case identifier. *)
Definition approvals_for (id : string) (approvals : list ApprovalRecord.t)
  : list ApprovalRecord.t :=
  filter (λ a, ApprovalRecord.case_id a = id) approvals.

Definition pending_without_record (approvals : list ApprovalRecord.t)
    (c : Case) : Prop :=
  status c = "PENDING_APPROVAL" ∧ approvals_for (case_id c) approvals = [].

Definition decided_with_one_record (approvals : list ApprovalRecord.t)
    (c : Case) : Prop :=
  (status c = "APPROVE" ∨ status c = "REJECT")
  ∧ ∃ a, approvals_for (case_id c) approvals = [a]
         ∧ ApprovalRecord.decision a = status c.

(** Every stored case is named after its position and is either pending
    without a record or decided with exactly one; every record belongs
    to a stored case. *)
Definition consistent (s : State) : Prop :=
  (∀ j c, cases_db s !! j = Some c →
     (∃ now, case_id c = new_case_id now j)
     ∧ (pending_without_record (approvals_db s) c
        ∨ decided_with_one_record (approvals_db s) c))
  ∧ (∀ a, a ∈ approvals_db s →
       ∃ j c, cases_db s !! j = Some c
              ∧ case_id c = ApprovalRecord.case_id a).

End AppTerms.

Definition first_case_id : string := "CASE_20260101120000_0".

Definition approve_first : App.ApprovalRequest.t :=
  {| App.ApprovalRequest.case_id := first_case_id;
     App.ApprovalRequest.officer_id := "OFFICER_123";
     App.ApprovalRequest.decision := "APPROVE";
     App.ApprovalRequest.officer_notes := Some "Reviewed documents" |}.

Definition reject_first : App.ApprovalRequest.t :=
  {| App.ApprovalRequest.case_id := first_case_id;
     App.ApprovalRequest.officer_id := "OFFICER_456";
     App.ApprovalRequest.decision := "REJECT";
     App.ApprovalRequest.officer_notes := None |}.

Definition analyzed_state : App.State :=
  App.serve (App.startup (Some toy_model) (Some failing_engine))
    (App.AnalyzeCase sample_case "20260101120000" "2026-01-01T12:00:00").

Definition approved_state : App.State :=
  App.serve analyzed_state (App.ApproveCase approve_first "t1" "t2").

Definition demo_requests : list App.request :=
  [App.AnalyzeCase sample_case "20260101120000" "2026-01-01T12:00:00";
   App.ApproveCase approve_first "t1" "t2";
   App.ApproveCase reject_first "t3" "t4";
   App.AnalyzeCase sample_case "20260101120000" "2026-01-01T12:00:00"].

Definition demo_state : App.State :=
  foldl App.serve (App.startup (Some toy_model) (Some failing_engine))
    demo_requests.

Definition pending_workflow : Workflow.ApprovalWorkflow :=
  snd (Workflow.create_approval_request "CASE_001" "URGENT_REVIEW" (755 # 10)
         "Your case needs review" "t0" Workflow.__init__).

(** ** Vocabulary of the further properties *)

Section WorkflowRunTerms.
Import Workflow.

(** The two calls that change a workflow. *)
Inductive workflow_call :=
| Create (case_id ai_recommendation : string) (ai_risk_score : Q)
         (ai_explanation now : string)
| Process (case_id officer_id decision : string)
          (officer_notes : option string) (now_approved now_audit : string).

Definition workflow_after (self : ApprovalWorkflow) (c : workflow_call)
  : ApprovalWorkflow :=
  match c with
  | Create case_id ai_recommendation ai_risk_score ai_explanation now =>
    snd (create_approval_request case_id ai_recommendation ai_risk_score
           ai_explanation now self)
  | Process case_id officer_id decision officer_notes now_approved now_audit =>
    snd (process_human_approval case_id officer_id decision officer_notes
           now_approved now_audit self)
  end.

Definition workflow_reachable (self : ApprovalWorkflow) : Prop :=
  ∃ calls, self = foldl workflow_after __init__ calls.

(** The human fields of a record agree with its status. *)
Definition record_well_formed (a : approval) : Prop :=
  match status a with
  | PENDING_APPROVAL =>
    human_decision a = None ∧ officer_id a = None
    ∧ officer_notes a = None ∧ approved_at a = None
  | APPROVED =>
    human_decision a = Some "APPROVE"
    ∧ is_Some (officer_id a) ∧ is_Some (approved_at a)
  | REJECTED =>
    human_decision a = Some "REJECT"
    ∧ is_Some (officer_id a) ∧ is_Some (approved_at a)
  end.

(** What the AI analysis wrote into a record. *)
Definition same_ai_fields (a b : approval) : Prop :=
  case_id a = case_id b
  ∧ ai_recommendation a = ai_recommendation b
  ∧ ai_risk_score a = ai_risk_score b
  ∧ ai_explanation a = ai_explanation b
  ∧ created_at a = created_at b.

(** What every call of the workflow keeps true. *)
Definition workflow_invariant (self : ApprovalWorkflow) : Prop :=
  Forall record_well_formed (approval_log self)
  ∧ length (printed self)
    = length (filter (λ a, status a ≠ PENDING_APPROVAL) (approval_log self))
  ∧ Forall (λ line, decision_alignment line = "OVERRIDE"
                    ∨ decision_alignment line = "ALIGNED") (printed self).

End WorkflowRunTerms.

(** A log with two requests for CASE_001. *)
Definition duplicated_workflow : Workflow.ApprovalWorkflow :=
  foldl workflow_after Workflow.__init__
    [Create "CASE_001" "URGENT_REVIEW" (755 # 10) "first" "t0";
     Create "CASE_001" "ROUTINE_REVIEW" (10 # 1) "second" "t1"].

Definition demo_calls : list workflow_call :=
  [Create "CASE_001" "URGENT_REVIEW" (755 # 10) "first" "t0";
   Create "CASE_002" "ROUTINE_REVIEW" (10 # 1) "second" "t1";
   Process "CASE_002" "OFFICER_9" "REJECT" None "t2" "t3";
   Process "CASE_002" "OFFICER_9" "APPROVE" None "t4" "t5";
   Process "CASE_001" "OFFICER_9" "MAYBE" None "t6" "t7"].

Section EncodingTerms.
Import Models.

(** Strictly before, in the order [np.unique] sorts text by. *)
Definition str_lt (a b : string) : Prop := String.compare a b = Lt.

(** The classes and the codes [prepare_features] computes for a
    dataframe. *)
Definition scheme_classes (df : list CitizenCase.t) : list string :=
  np_unique (CitizenCase.scheme_type <$> df).

Definition scheme_codes (df : list CitizenCase.t) : list nat :=
  snd (fit_transform (CitizenCase.scheme_type <$> df)).

End EncodingTerms.

Definition case_of_scheme (scheme : string) : CitizenCase.t :=
  {| CitizenCase.citizen_id := "CIT_0001";
     CitizenCase.income := 35000 # 1;
     CitizenCase.last_document_update_months := 18 # 1;
     CitizenCase.scheme_type := scheme;
     CitizenCase.past_benefit_interruptions := 3 |}.

Section EngineTerms.
Import Explanation.

(** The environment lets [__init__] build a client and name a
    deployment: the SDK is there, endpoint and key are set and not
    empty, the constructor returns, and the deployment name is not set
    to the empty text. *)
Definition configured (env : Environment) : Prop :=
  AZURE_OPENAI_AVAILABLE env = true
  ∧ AZURE_OPENAI_DEPLOYMENT_NAME env ≠ Some ""
  ∧ ∃ endpoint api_key c,
      AZURE_OPENAI_ENDPOINT env = Some endpoint ∧ endpoint ≠ ""
      ∧ AZURE_OPENAI_API_KEY env = Some api_key ∧ api_key ≠ ""
      ∧ new_AzureOpenAI env api_key "2024-02-15-preview" endpoint = inr c.

(** A service that answers every prompt with the same text. *)
Definition answering_client (text : string) : AzureOpenAI :=
  {| chat_completions_create :=
       λ _ _, inr {| choices := [Some text] |} |}.

(** Endpoint and key are set and the service answers, but the
    deployment name is set to the empty text. *)
Definition env_empty_deployment : Environment :=
  {| AZURE_OPENAI_AVAILABLE := true;
     AZURE_OPENAI_ENDPOINT := Some "https://example.openai.azure.com/";
     AZURE_OPENAI_API_KEY := Some "key";
     AZURE_OPENAI_DEPLOYMENT_NAME := Some "";
     new_AzureOpenAI := λ _ _ _, inr (answering_client "Hello") |}.

Definition env_working : Environment :=
  {| AZURE_OPENAI_AVAILABLE := true;
     AZURE_OPENAI_ENDPOINT := Some "https://example.openai.azure.com/";
     AZURE_OPENAI_API_KEY := Some "key";
     AZURE_OPENAI_DEPLOYMENT_NAME := None;
     new_AzureOpenAI := λ _ _ _, inr (answering_client "Hello") |}.

End EngineTerms.

(** A trained model, as [load_model] leaves it. *)
Definition loaded_toy_model : Models.WelfareRiskModel :=
  Models.load_model Models.__init__
    {| Models.md_classifier :=
         {| Models.clf_predict := λ X, inr ((λ _, "medium") <$> X);
            Models.feature_importances_ := [1 # 2; 1 # 2] |};
       Models.md_regressor :=
         {| Models.reg_predict := λ X, inr ((λ _, 45 # 1) <$> X) |};
       Models.md_label_encoder :=
         {| Models.classes_ := Some ["pension"; "ration"; "subsidy"] |};
       Models.md_feature_names := Models.features |}.

Section ServiceTerms.
Import App.

(** What the analysis wrote into a case. *)
Definition same_analysis (c d : Case) : Prop :=
  case_id c = case_id d ∧ citizen_id c = citizen_id d
  ∧ risk_score c = risk_score d ∧ risk_level c = risk_level d
  ∧ explanation c = explanation d
  ∧ recommended_action c = recommended_action d
  ∧ action_description c = action_description d
  ∧ model_reasons c = model_reasons d ∧ timestamp c = timestamp d.

(** The fields of a stored case fit together. *)
Definition case_fields_ok (c : Case) : Prop :=
  (0 <= risk_score c <= 100)%Q
  ∧ ((risk_level c = "high" ∧ recommended_action c = "URGENT_REVIEW")
     ∨ (risk_level c = "medium" ∧ recommended_action c = "STANDARD_REVIEW")
     ∨ (risk_level c ≠ "high" ∧ risk_level c ≠ "medium"
        ∧ recommended_action c = "ROUTINE_REVIEW"))
  ∧ ((status c = "PENDING_APPROVAL" ∧ officer_id c = None
      ∧ officer_notes c = None ∧ approval_timestamp c = None)
     ∨ ((status c = "APPROVE" ∨ status c = "REJECT")
        ∧ is_Some (officer_id c) ∧ is_Some (officer_notes c)
        ∧ is_Some (approval_timestamp c))).

(** The same request for another scheme. *)
Definition with_scheme (body : CitizenCase.t) (scheme : string)
  : CitizenCase.t :=
  {| CitizenCase.citizen_id := CitizenCase.citizen_id body;
     CitizenCase.income := CitizenCase.income body;
     CitizenCase.last_document_update_months :=
       CitizenCase.last_document_update_months body;
     CitizenCase.scheme_type := scheme;
     CitizenCase.past_benefit_interruptions :=
       CitizenCase.past_benefit_interruptions body |}.

(** An answer of [analyze_case] without the explanation text. *)
Definition analysis_view (r : HTTPError + Case)
  : HTTPError
    + (string * string * Q * string * string * string
       * list (string * Models.reason) * string * string) :=
  match r with
  | inl e => inl e
  | inr c =>
    inr (case_id c, citizen_id c, risk_score c, risk_level c,
         recommended_action c, action_description c, model_reasons c,
         timestamp c, status c)
  end.

(** The model object after [prepare_features] on the one-row dataframe
    of a request. *)
Definition refit_on (rm : Models.WelfareRiskModel) (body : CitizenCase.t)
  : Models.WelfareRiskModel :=
  {| Models.classifier := Models.classifier rm;
     Models.regressor := Models.regressor rm;
     Models.label_encoder :=
       {| Models.classes_ := Some [CitizenCase.scheme_type body] |};
     Models.feature_names := Some Models.features;
     Models.is_trained := Models.is_trained rm |}.

Definition pending_query : CasesQuery :=
  {| q_status := Some "PENDING_APPROVAL"; q_risk_level := None;
     q_limit := None |}.

End ServiceTerms.


Definition approve_unknown : App.ApprovalRequest.t :=
  {| App.ApprovalRequest.case_id := "CASE_0_7";
     App.ApprovalRequest.officer_id := "OFFICER_123";
     App.ApprovalRequest.decision := "APPROVE";
     App.ApprovalRequest.officer_notes := None |}.

Section ListingTerms.
Import App.

(** [a] is not older than [b], by the text of their timestamps. *)
Definition not_older (a b : Case) : Prop :=
  String.ltb (timestamp a) (timestamp b) = false.

Definition three_cases : list Case :=
  [stored_case "CASE_1_0" "2026-01-01T10:00:00" "PENDING_APPROVAL" "high";
   stored_case "CASE_2_1" "2026-01-03T10:00:00" "APPROVE" "low";
   stored_case "CASE_3_2" "2026-01-02T10:00:00" "PENDING_APPROVAL" "high"].

Definition last_but_one : CasesQuery :=
  {| q_status := None; q_risk_level := None; q_limit := Some (-1)%Z |}.

End ListingTerms.

(** Draws for one row of the synthetic dataset. *)
Definition sample_draws : Step1.draws :=
  {| Step1.base_income := 31234567 # 1000;
     Step1.exp_update := 401 # 10;
     Step1.scheme_choice := "pension";
     Step1.poisson_interruptions := 7;
     Step1.noise := -125 # 100 |}.

(** * Properties *)

(** Unfolding one step of a [Run] computation. *)
Ltac run_unfold :=
  unfold mbind, run_bind, mret, run_ret, get, put, modify, raise, App.call,
    App.try_except, App.on_risk_model in *.

(** ** The approval workflow (step5_human_in_loop.py) *)

Section WorkflowProperties.
Import Workflow.

Lemma opt_str_eqb_eq o s : opt_str_eqb o s = true ↔ o = Some s.
Proof.
  destruct o as [x|]; simpl; [|split; discriminate].
  rewrite String.eqb_eq. split; congruence.
Qed.

Lemma alignment_cases (a : approval) :
  (override_pair (ai_recommendation a) (human_decision a)
   ∧ _check_decision_alignment a = "OVERRIDE")
  ∨ (¬ override_pair (ai_recommendation a) (human_decision a)
     ∧ _check_decision_alignment a = "ALIGNED").
Proof.
  unfold _check_decision_alignment, override_pair; cbv zeta.
  destruct (String.eqb _ "URGENT_REVIEW" && opt_str_eqb _ "APPROVE") eqn:H1.
  { apply andb_true_iff in H1 as [H1 H2].
    apply String.eqb_eq in H1. apply opt_str_eqb_eq in H2. auto. }
  destruct (String.eqb _ "ROUTINE_REVIEW" && opt_str_eqb _ "REJECT") eqn:H2.
  { apply andb_true_iff in H2 as [H2 H3].
    apply String.eqb_eq in H2. apply opt_str_eqb_eq in H3. auto. }
  right. split; [|done]. intros [[Ha Hb]|[Ha Hb]].
  - rewrite Ha, Hb in H1. discriminate.
  - rewrite Ha, Hb in H2. discriminate.
Qed.

(** C1. For every approval record, [_check_decision_alignment] answers
    OVERRIDE exactly when (ai_recommendation, human_decision) is
    (URGENT_REVIEW, APPROVE) or (ROUTINE_REVIEW, REJECT), and ALIGNED for
    every other pair (so also for STANDARD_REVIEW with APPROVE and with
    REJECT, see [standard_review_always_aligned]). *)
Theorem check_decision_alignment_spec (a : approval) :
  (_check_decision_alignment a = "OVERRIDE"
   ↔ override_pair (ai_recommendation a) (human_decision a))
  ∧ (_check_decision_alignment a = "ALIGNED"
     ↔ ¬ override_pair (ai_recommendation a) (human_decision a)).
Proof.
  destruct (alignment_cases a) as [[Ho He]|[Ho He]]; rewrite He.
  - split; [tauto|]. split; [discriminate|tauto].
  - split; [split; [discriminate|tauto]|tauto].
Qed.

Lemma standard_review_always_aligned (a : approval) :
  ai_recommendation a = "STANDARD_REVIEW" →
  _check_decision_alignment a = "ALIGNED".
Proof.
  intros Hs. destruct (alignment_cases a) as [[Ho _]|[_ He]]; [|done].
  rewrite Hs in Ho. destruct Ho as [[? _]|[? _]]; discriminate.
Qed.

(** The example of the specification: CASE_001, recommended for urgent
    review and approved by the officer, is an override. *)
Example case_001_override :
  snd (process_human_approval "CASE_001" "OFFICER_123" "APPROVE"
         (Some "Reviewed documents") "t1" "t2"
         (snd (create_approval_request "CASE_001" "URGENT_REVIEW" (755 # 10)
                 "Your case needs review" "t0" __init__)))
  = {| approval_log :=
         [{| case_id := "CASE_001"; ai_recommendation := "URGENT_REVIEW";
             ai_risk_score := 755 # 10;
             ai_explanation := "Your case needs review";
             status := APPROVED; created_at := "t0";
             human_decision := Some "APPROVE";
             officer_id := Some "OFFICER_123";
             officer_notes := Some "Reviewed documents";
             approved_at := Some "t1" |}];
       printed :=
         [{| timestamp := "t2"; audit_case_id := "CASE_001";
             audit_officer_id := Some "OFFICER_123";
             audit_ai_recommendation := "URGENT_REVIEW";
             audit_ai_risk_score := 755 # 10;
             audit_human_decision := Some "APPROVE";
             audit_officer_notes := Some "Reviewed documents";
             decision_alignment := "OVERRIDE" |}] |}.
Proof. reflexivity. Qed.

(** *** get_pending_approvals *)

Lemma pending_snoc (log : list approval) (a : approval) :
  filter (λ a, status a = PENDING_APPROVAL) (log ++ [a])%list
  = (filter (λ a, status a = PENDING_APPROVAL) log
     ++ (if bool_decide (status a = PENDING_APPROVAL) then [a] else []))%list.
Proof.
  rewrite filter_app. f_equal.
  rewrite filter_cons, filter_nil.
  case_bool_decide; case_decide; done.
Qed.

(** C6. In every state of the workflow [get_pending_approvals] returns
    exactly the records of the log whose status is PENDING_APPROVAL, in
    insertion order: it is a subsequence of the log, it holds a record
    exactly when the log holds it with status PENDING_APPROVAL, a record
    appended to the log is appended to it when pending and leaves it as
    it was otherwise, and none of its records is APPROVED or REJECTED. *)
Theorem get_pending_approvals_spec (self : ApprovalWorkflow) :
  get_pending_approvals self `sublist_of` approval_log self
  ∧ (∀ a, a ∈ get_pending_approvals self
          ↔ a ∈ approval_log self ∧ status a = PENDING_APPROVAL)
  ∧ (∀ a, get_pending_approvals
            {| approval_log := approval_log self ++ [a];
               printed := printed self |}
          = (get_pending_approvals self
             ++ (if bool_decide (status a = PENDING_APPROVAL)
                 then [a] else []))%list)
  ∧ Forall (λ a, status a ≠ APPROVED ∧ status a ≠ REJECTED)
           (get_pending_approvals self).
Proof.
  unfold get_pending_approvals; simpl.
  split; [apply sublist_filter|].
  split; [intros a; rewrite list_elem_of_filter; tauto|].
  split; [intros a; apply pending_snoc|].
  apply Forall_forall. intros a Ha.
  apply list_elem_of_filter in Ha as [Hp _]. rewrite Hp. done.
Qed.

(** *** create_approval_request *)

(** C9, as stated, fails: a second request for CASE_001 is appended like
    the first. *)
Lemma create_duplicate_is_appended : ¬ create_rejects_duplicates.
Proof.
  intros H.
  destruct (H {| approval_log :=
                   [pending_request "CASE_001" "URGENT_REVIEW" (755 # 10)
                      "explanation" "t0"];
                 printed := [] |}
              "CASE_001" "ROUTINE_REVIEW" (10 # 1) "other" "t1") as [e He].
  - eexists. split; [apply list_elem_of_here|reflexivity].
  - discriminate He.
Qed.

(** C9 (amended). [create_approval_request] never fails: in every state
    of the workflow, whether or not the log already holds a record with
    that case_id, it appends one new record in state PENDING_APPROVAL
    with the given fields and null human-decision fields, returns it,
    and changes nothing else. *)
Theorem create_approval_request_spec
    (self : ApprovalWorkflow) (case_id ai_recommendation : string)
    (ai_risk_score : Q) (ai_explanation now : string) :
  create_approval_request case_id ai_recommendation ai_risk_score
    ai_explanation now self
  = (inr (pending_request case_id ai_recommendation ai_risk_score
            ai_explanation now),
     {| approval_log :=
          (approval_log self
           ++ [pending_request case_id ai_recommendation ai_risk_score
                 ai_explanation now])%list;
        printed := printed self |}).
Proof. reflexivity. Qed.

(** *** process_human_approval *)

Lemma process_human_approval_outcome self case_id officer_id decision
    officer_notes now_approved now_audit :
  process_outcome self case_id officer_id decision officer_notes
    now_approved now_audit
    (process_human_approval case_id officer_id decision officer_notes
       now_approved now_audit self).
Proof.
  unfold process_human_approval. run_unfold.
  destruct (list_find _ _) as [[i a]|] eqn:Hfind; [|by constructor].
  case_bool_decide as Hst; cbn [negb].
  - destruct (str_in decision ["APPROVE"; "REJECT"]) eqn:Hd; cbn [negb].
    + exact (process_decided self case_id officer_id decision officer_notes
               now_approved now_audit i a Hfind Hst Hd).
    + by apply (process_invalid _ _ _ _ _ _ _ i a).
  - by apply (process_already _ _ _ _ _ _ _ i a).
Qed.

(** C10. Whenever [process_human_approval] raises (unknown case_id,
    record not in PENDING_APPROVAL, or a decision other than APPROVE and
    REJECT) the workflow is left as it was: no record of the log is
    added, removed or changed and nothing is printed; the error raised
    tells which of the three checks failed. *)
Theorem process_human_approval_error_unchanged
    (self self' : ApprovalWorkflow) (case_id officer_id decision : string)
    (officer_notes : option string) (now_approved now_audit : string)
    (e : ValueError) :
  process_human_approval case_id officer_id decision officer_notes
    now_approved now_audit self = (inl e, self') →
  self' = self
  ∧ match e with
    | NotFound c =>
      c = case_id
      ∧ Forall (λ a, Workflow.case_id a ≠ case_id) (approval_log self)
    | AlreadyProcessed c st =>
      c = case_id ∧ st ≠ PENDING_APPROVAL
      ∧ ∃ i a, list_find (λ a, Workflow.case_id a = case_id)
                 (approval_log self) = Some (i, a) ∧ status a = st
    | InvalidDecision => decision ≠ "APPROVE" ∧ decision ≠ "REJECT"
    end.
Proof.
  intros Hrun.
  pose proof (process_human_approval_outcome self case_id officer_id
                decision officer_notes now_approved now_audit) as Hout.
  rewrite Hrun in Hout. inversion Hout; subst.
  - split; [done|]. split; [done|]. by apply (list_find_None _ _).
  - split; [done|]. eauto 10.
  - split; [done|]. split; intros ->; discriminate.
Qed.

(** Each failed check does raise. *)
Lemma process_human_approval_raises
    (self : ApprovalWorkflow) (case_id officer_id decision : string)
    (officer_notes : option string) (now_approved now_audit : string) :
  let found :=
    list_find (λ a, Workflow.case_id a = case_id) (approval_log self) in
  found = None
  ∨ (∃ i a, found = Some (i, a) ∧ status a ≠ PENDING_APPROVAL)
  ∨ str_in decision ["APPROVE"; "REJECT"] = false →
  ∃ e, process_human_approval case_id officer_id decision officer_notes
         now_approved now_audit self = (inl e, self).
Proof.
  intros found Hcond.
  destruct (process_human_approval_outcome self case_id officer_id decision
              officer_notes now_approved now_audit)
    as [Hf|i a Hf Hst|i a Hf Hst Hd|i a Hf Hst Hd]; eauto.
  exfalso. subst found. rewrite Hf in Hcond.
  destruct Hcond as [?|[(? & ? & [= <- <-] & ?)|?]]; congruence.
Qed.

Lemma list_find_insert_same {A} (P : A → Prop) `{!∀ x, Decision (P x)}
    (l : list A) (i : nat) (x y : A) :
  list_find P l = Some (i, x) → P y →
  list_find P (<[i := y]> l) = Some (i, y).
Proof.
  intros Hfind Hy. apply list_find_Some in Hfind as (Hl & _ & Hbefore).
  apply list_find_Some. split; [|split; [done|]].
  - apply list_lookup_insert_eq. by eapply lookup_lt_Some.
  - intros j z Hj Hlt. rewrite list_lookup_insert_ne in Hj by lia. eauto.
Qed.

(** A first successful decision on [case_id] makes every later call on it
    a conflict that changes nothing. *)
Lemma workflow_second_call_conflict
    (self self1 : ApprovalWorkflow) (case_id officer_id decision : string)
    (officer_notes : option string) (now_approved now_audit : string)
    (r : approval) :
  process_human_approval case_id officer_id decision officer_notes
    now_approved now_audit self = (inr r, self1) →
  (∃ i, list_find (λ a, Workflow.case_id a = case_id) (approval_log self1)
        = Some (i, r))
  ∧ (status r = APPROVED ∨ status r = REJECTED)
  ∧ human_decision r = Some decision
  ∧ Workflow.officer_id r = Some officer_id
  ∧ Workflow.officer_notes r = officer_notes
  ∧ approved_at r = Some now_approved
  ∧ ∀ officer_id' decision' officer_notes' now_approved' now_audit',
      process_human_approval case_id officer_id' decision' officer_notes'
        now_approved' now_audit' self1
      = (inl (AlreadyProcessed case_id (status r)), self1).
Proof.
  intros Hrun.
  pose proof (process_human_approval_outcome self case_id officer_id
                decision officer_notes now_approved now_audit) as Hout.
  rewrite Hrun in Hout. inversion Hout as [| | |i a Hf Hst Hd a' Hr].
  assert (Hfind1 : list_find (λ a, Workflow.case_id a = case_id)
                     (<[i := a']> (approval_log self)) = Some (i, a')).
  { eapply list_find_insert_same; [done|].
    apply list_find_Some in Hf as (_ & Hid & _). exact Hid. }
  assert (Hterminal : status a' = APPROVED ∨ status a' = REJECTED).
  { subst a'. simpl. destruct (String.eqb decision "APPROVE"); auto. }
  split; [eauto|]. split; [done|]. do 4 (split; [done|]).
  intros officer_id' decision' officer_notes' now_approved' now_audit'.
  destruct (process_human_approval_outcome
              {| approval_log := <[i := a']> (approval_log self);
                 printed := (printed self ++ [audit_of a' now_audit])%list |}
              case_id officer_id' decision' officer_notes'
              now_approved' now_audit')
    as [Hf'|j b Hf' Hst'|j b Hf' Hst' Hd'|j b Hf' Hst' Hd'];
    simpl in Hf'; rewrite Hfind1 in Hf'; try discriminate;
    injection Hf' as <- <-.
  - done.
  - destruct Hterminal; congruence.
  - destruct Hterminal; congruence.
Qed.

End WorkflowProperties.

Lemma process_human_approval_error_unchanged_witness :
  Workflow.process_human_approval "CASE_001" "OFFICER_456" "REJECT" None
    "t3" "t4" decided_workflow
  = (inl (Workflow.AlreadyProcessed "CASE_001" Workflow.APPROVED),
     decided_workflow)
  ∧ decided_workflow = decided_workflow
  ∧ "CASE_001" = "CASE_001" ∧ Workflow.APPROVED ≠ Workflow.PENDING_APPROVAL
  ∧ ∃ i a, list_find (λ a, Workflow.case_id a = "CASE_001")
             (Workflow.approval_log decided_workflow) = Some (i, a)
           ∧ Workflow.status a = Workflow.APPROVED.
Proof.
  split; [reflexivity|].
  apply (process_human_approval_error_unchanged decided_workflow
           decided_workflow "CASE_001" "OFFICER_456" "REJECT" None "t3" "t4"
           (Workflow.AlreadyProcessed "CASE_001" Workflow.APPROVED)).
  reflexivity.
Defined.

(** ** The risk model (backend/models.py, step2_ml_risk_model.py) *)

Section ModelProperties.
Import Models.

Lemma clip_0_100 (x : Q) : (0 <= Qmin 100 (Qmax x 0) <= 100)%Q.
Proof.
  split.
  - apply Q.min_glb; [discriminate|apply Q.le_max_r].
  - apply Q.le_min_l.
Qed.

Lemma np_clip_0_100 (a : list Q) :
  Forall (λ s, (0 <= s <= 100)%Q) (np_clip a 0 100).
Proof.
  unfold np_clip. apply Forall_fmap, Forall_forall. intros x _.
  apply clip_0_100.
Qed.

(** A number already in the range is returned as it is. *)
Lemma clip_in_range (x : Q) : (0 <= x <= 100)%Q → Qmin 100 (Qmax x 0) == x.
Proof.
  intros [H0 H100]. rewrite (Q.max_l x 0) by done. by apply Q.min_r.
Qed.

(** [predict_risk] by cases: when the model is trained and both
    estimators accept the matrix it returns, otherwise it raises. *)
Lemma predict_risk_trained (self : WelfareRiskModel) (X : ndarray)
    (clf : Classifier) (reg : Regressor) (levels : list string)
    (raw : list Q) :
  is_trained self = true →
  classifier self = Some clf → clf_predict clf X = inr levels →
  regressor self = Some reg → reg_predict reg X = inr raw →
  predict_risk self X
  = inr (levels, np_clip raw 0 100, feature_importances_ clf).
Proof.
  intros Ht Hc Hl Hr Hs. unfold predict_risk.
  by rewrite Ht, Hc, Hl, Hr, Hs.
Qed.

(** C5. For every feature matrix that [predict_risk] accepts, which it
    does only on a trained model, the returned scores are the
    regressor's raw outputs on that matrix clamped with [np.clip] to
    0..100, and every one of them lies in the interval [0, 100]. *)
Theorem predict_risk_scores_in_range (self : WelfareRiskModel) (X : ndarray)
    (risk_levels : list string) (risk_scores feature_importance : list Q) :
  predict_risk self X = inr (risk_levels, risk_scores, feature_importance) →
  is_trained self = true
  ∧ (∃ reg raw, regressor self = Some reg ∧ reg_predict reg X = inr raw
                ∧ risk_scores = np_clip raw 0 100)
  ∧ Forall (λ s, (0 <= s <= 100)%Q) risk_scores.
Proof.
  unfold predict_risk. intros H.
  destruct (is_trained self); [|discriminate]. simpl in H.
  destruct (classifier self) as [clf|]; [|discriminate].
  destruct (clf_predict clf X) as [|levels]; [discriminate|].
  destruct (regressor self) as [reg|]; [|discriminate].
  destruct (reg_predict reg X) as [|raw] eqn:Hraw; [discriminate|].
  injection H as <- <- <-.
  split; [done|]. split; [eauto|]. apply np_clip_0_100.
Qed.

(** *** The label encoder *)

Lemma class_index_singleton (v : string) : class_index [v] v = 0%nat.
Proof. unfold class_index. simpl. by rewrite decide_True. Qed.

Lemma str_lt_ne (a b : string) : str_lt a b → a ≠ b.
Proof.
  unfold str_lt. intros H ->. pose proof H as H'.
  rewrite String.compare_antisym in H'. rewrite H in H'. discriminate.
Qed.

(** [prepare_features] on a batch of two cases whose schemes differ: the
    earlier scheme in the order of the text is encoded 0 and the later
    one 1, in whichever order the rows come. *)
Lemma prepare_features_pair (self : WelfareRiskModel) (c1 c2 : CitizenCase.t) :
  str_lt (CitizenCase.scheme_type c1) (CitizenCase.scheme_type c2) →
  prepare_features [c1; c2] self
  = (inr [feature_row c1 0; feature_row c2 1],
     {| classifier := classifier self;
        regressor := regressor self;
        label_encoder :=
          {| classes_ := Some [CitizenCase.scheme_type c1;
                               CitizenCase.scheme_type c2] |};
        feature_names := Some features;
        is_trained := is_trained self |})
  ∧ prepare_features [c2; c1] self
    = (inr [feature_row c2 1; feature_row c1 0],
       {| classifier := classifier self;
          regressor := regressor self;
          label_encoder :=
            {| classes_ := Some [CitizenCase.scheme_type c1;
                                 CitizenCase.scheme_type c2] |};
          feature_names := Some features;
          is_trained := is_trained self |}).
Proof.
  intros Hlt. pose proof (str_lt_ne _ _ Hlt) as Hne.
  assert (Hgt : String.compare (CitizenCase.scheme_type c2)
                  (CitizenCase.scheme_type c1) = Gt).
  { rewrite String.compare_antisym. unfold str_lt in Hlt. by rewrite Hlt. }
  assert (H1 : class_index [CitizenCase.scheme_type c1;
                            CitizenCase.scheme_type c2]
                 (CitizenCase.scheme_type c1) = 0%nat).
  { unfold class_index. simpl. by rewrite decide_True. }
  assert (H2 : class_index [CitizenCase.scheme_type c1;
                            CitizenCase.scheme_type c2]
                 (CitizenCase.scheme_type c2) = 1%nat).
  { unfold class_index. simpl. rewrite decide_False by done.
    simpl. by rewrite decide_True. }
  unfold prepare_features, fit_transform, np_unique. run_unfold.
  cbn [fmap list_fmap foldr insert_class]. unfold str_lt in Hlt.
  rewrite Hlt, Hgt. cbn [insert_class zip_with fst snd].
  by rewrite H1, H2.
Qed.

(** C7. [prepare_features] refits the label encoder on the column of the
    dataframe it is given.  On every single-row input the encoder's
    classes are that one scheme and the encoded scheme_type feature is
    0, whichever of pension, subsidy or ration (or any other text) the
    row holds.  The code of a category depends on what else is in the
    batch: in a batch of two cases with different schemes the scheme
    that comes first in the order of the text is encoded 0 and the
    other 1, in either order of the rows; so subsidy is encoded 0
    alone, 1 beside pension, and 2 in a batch with ration and pension. *)
Theorem prepare_features_encoding_depends_on_batch (self : WelfareRiskModel)
    (c : CitizenCase.t) :
  prepare_features [c] self
  = (inr [[CitizenCase.income c;
           CitizenCase.last_document_update_months c;
           0%Q;
           inject_Z (CitizenCase.past_benefit_interruptions c)]],
     {| classifier := classifier self;
        regressor := regressor self;
        label_encoder := {| classes_ := Some [CitizenCase.scheme_type c] |};
        feature_names := Some features;
        is_trained := is_trained self |})
  ∧ (∀ c1 c2,
       str_lt (CitizenCase.scheme_type c1) (CitizenCase.scheme_type c2) →
       fst (prepare_features [c1; c2] self)
       = inr [[CitizenCase.income c1;
               CitizenCase.last_document_update_months c1;
               0%Q;
               inject_Z (CitizenCase.past_benefit_interruptions c1)];
              [CitizenCase.income c2;
               CitizenCase.last_document_update_months c2;
               1%Q;
               inject_Z (CitizenCase.past_benefit_interruptions c2)]]
       ∧ fst (prepare_features [c2; c1] self)
         = inr [[CitizenCase.income c2;
                 CitizenCase.last_document_update_months c2;
                 1%Q;
                 inject_Z (CitizenCase.past_benefit_interruptions c2)];
                [CitizenCase.income c1;
                 CitizenCase.last_document_update_months c1;
                 0%Q;
                 inject_Z (CitizenCase.past_benefit_interruptions c1)]]
       ∧ classes_ (label_encoder (snd (prepare_features [c1; c2] self)))
         = Some [CitizenCase.scheme_type c1; CitizenCase.scheme_type c2]
       ∧ classes_ (label_encoder (snd (prepare_features [c2; c1] self)))
         = Some [CitizenCase.scheme_type c1; CitizenCase.scheme_type c2])
  ∧ (∀ b1 b2 b3,
       fst (prepare_features [with_scheme b1 "subsidy"] self)
       = inr [feature_row (with_scheme b1 "subsidy") 0]
       ∧ fst (prepare_features
                [with_scheme b1 "subsidy"; with_scheme b2 "pension"] self)
         = inr [feature_row (with_scheme b1 "subsidy") 1;
                feature_row (with_scheme b2 "pension") 0]
       ∧ fst (prepare_features
                [with_scheme b1 "subsidy"; with_scheme b2 "ration";
                 with_scheme b3 "pension"] self)
         = inr [feature_row (with_scheme b1 "subsidy") 2;
                feature_row (with_scheme b2 "ration") 1;
                feature_row (with_scheme b3 "pension") 0]).
Proof.
  split; [|split].
  - unfold prepare_features, fit_transform. run_unfold. simpl.
    by rewrite class_index_singleton.
  - intros c1 c2 Hlt.
    destruct (prepare_features_pair self c1 c2 Hlt) as [-> ->].
    by repeat split.
  - intros b1 b2 b3. by repeat split.
Qed.

End ModelProperties.

Lemma prepare_features_encoding_depends_on_batch_witness :
  str_lt (CitizenCase.scheme_type (case_of_scheme "pension"))
         (CitizenCase.scheme_type (case_of_scheme "subsidy"))
  ∧ fst (Models.prepare_features
           [case_of_scheme "subsidy"; case_of_scheme "pension"] toy_model)
    = inr [[35000 # 1; 18 # 1; 1 # 1; 3 # 1]; [35000 # 1; 18 # 1; 0 # 1; 3 # 1]]
  ∧ fst (Models.prepare_features [case_of_scheme "subsidy"] toy_model)
    = inr [[35000 # 1; 18 # 1; 0 # 1; 3 # 1]].
Proof.
  assert (Hlt : str_lt (CitizenCase.scheme_type (case_of_scheme "pension"))
                       (CitizenCase.scheme_type (case_of_scheme "subsidy")))
    by reflexivity.
  split; [exact Hlt|]. split.
  - exact (proj1 (proj2 (proj1 (proj2 (prepare_features_encoding_depends_on_batch
                                  toy_model sample_case))
                           (case_of_scheme "pension")
                           (case_of_scheme "subsidy") Hlt))).
  - exact (f_equal fst
             (proj1 (prepare_features_encoding_depends_on_batch toy_model
                       (case_of_scheme "subsidy")))).
Defined.

Lemma predict_risk_scores_in_range_witness :
  Models.predict_risk toy_model [[250 # 1]; [-3 # 1]; [42 # 1]]
  = inr (["high"; "high"; "high"], [100 # 1; 0 # 1; 42 # 1],
         [1 # 4; 1 # 4; 1 # 4; 1 # 4])
  ∧ Models.is_trained toy_model = true
  ∧ (∃ reg raw, Models.regressor toy_model = Some reg
                ∧ Models.reg_predict reg [[250 # 1]; [-3 # 1]; [42 # 1]]
                  = inr raw
                ∧ [100 # 1; 0 # 1; 42 # 1] = Models.np_clip raw 0 100)
  ∧ Forall (λ s, (0 <= s <= 100)%Q) [100 # 1; 0 # 1; 42 # 1].
Proof.
  split; [reflexivity|].
  apply (predict_risk_scores_in_range toy_model
           [[250 # 1]; [-3 # 1]; [42 # 1]] ["high"; "high"; "high"]
           [100 # 1; 0 # 1; 42 # 1] [1 # 4; 1 # 4; 1 # 4; 1 # 4]).
  reflexivity.
Defined.

(** ** The explanation engine (backend/explanation.py) *)

Section ExplanationProperties.
Import Explanation.

Lemma Qge_bool_true (x y : Q) : Qge_bool x y = true ↔ (y <= x)%Q.
Proof. unfold Qge_bool. apply Qle_bool_iff. Qed.

Lemma Qge_bool_false (x y : Q) : Qge_bool x y = false ↔ (x < y)%Q.
Proof.
  rewrite <- not_true_iff_false, Qge_bool_true. split.
  - apply Qnot_le_lt.
  - apply Qlt_not_le.
Qed.

(** The fallback message is keyed on the score alone. *)
Lemma mock_explanation_thresholds (risk_score : Q) (risk_level : string) :
  ((60 <= risk_score)%Q
   ∧ _generate_mock_explanation risk_score risk_level
     = high_template (py_int risk_score))
  ∨ ((30 <= risk_score)%Q ∧ (risk_score < 60)%Q
     ∧ _generate_mock_explanation risk_score risk_level
       = moderate_template (py_int risk_score))
  ∨ ((risk_score < 30)%Q
     ∧ _generate_mock_explanation risk_score risk_level
       = low_template (py_int risk_score)).
Proof.
  unfold _generate_mock_explanation.
  destruct (Qge_bool risk_score 60) eqn:H60.
  { left. by apply Qge_bool_true in H60. }
  apply Qge_bool_false in H60.
  destruct (Qge_bool risk_score 30) eqn:H30.
  { right; left. by apply Qge_bool_true in H30. }
  apply Qge_bool_false in H30. right; right. done.
Qed.

Lemma generate_explanation_uses_mock (self : ExplanationEngine)
    (risk_score : Q) (risk_level : string)
    (model_reasons : list (string * Models.reason))
    (citizen_data : CitizenCase.t) :
  service_fails self risk_score risk_level model_reasons citizen_data →
  explanation (generate_explanation self risk_score risk_level model_reasons
                 citizen_data)
  = _generate_mock_explanation risk_score risk_level.
Proof.
  intros Hfail. unfold generate_explanation.
  destruct (if String.eqb risk_level "high" then _ else _) as [ra ad].
  simpl. destruct Hfail as [Hc|Hd|c d e Hc Hd Hask].
  - by rewrite Hc.
  - rewrite Hd. by destruct (client self).
  - rewrite Hc, Hd. simpl. rewrite Hask. by destruct (negb _).
Qed.

(** When the service answers, its text is what the citizen reads. *)
Lemma generate_explanation_uses_service (self : ExplanationEngine)
    (risk_score : Q) (risk_level : string)
    (model_reasons : list (string * Models.reason))
    (citizen_data : CitizenCase.t) (c : AzureOpenAI) (d text : string) :
  client self = Some c → deployment_name self = Some d → d ≠ "" →
  ask_azure_openai c d risk_score risk_level model_reasons citizen_data
    = inr text →
  explanation (generate_explanation self risk_score risk_level model_reasons
                 citizen_data) = text.
Proof.
  intros Hc Hd Hne Hask. unfold generate_explanation.
  destruct (if String.eqb risk_level "high" then _ else _) as [ra ad].
  simpl. rewrite Hc, Hd. simpl.
  destruct (String.eqb_spec d ""); [done|]. simpl. by rewrite Hask.
Qed.

(** A missing SDK, missing credentials or a constructor that raises
    leave the engine without a client. *)
Lemma init_misconfigured (env : Environment) :
  AZURE_OPENAI_AVAILABLE env = false
  ∨ truthy (AZURE_OPENAI_ENDPOINT env) = false
  ∨ truthy (AZURE_OPENAI_API_KEY env) = false
  ∨ (∀ key version endpoint,
        ∃ e, new_AzureOpenAI env key version endpoint = inl e) →
  client (__init__ env) = None.
Proof.
  unfold __init__. intros H.
  destruct (AZURE_OPENAI_AVAILABLE env); [|done].
  destruct (AZURE_OPENAI_ENDPOINT env) as [endpoint|]; [|done].
  destruct (AZURE_OPENAI_API_KEY env) as [api_key|]; [|done].
  simpl in H.
  destruct (String.eqb endpoint ""); simpl; [done|].
  destruct (String.eqb api_key ""); simpl; [done|].
  destruct H as [H|[H|[H|H]]]; try discriminate.
  destruct (H api_key "2024-02-15-preview" endpoint) as [e ->]. done.
Qed.

(** C4. Whenever the text generation client is unavailable,
    misconfigured or raises, [generate_explanation] still returns its
    result, and the explanation in it is the fallback message fixed by
    the risk score alone: the high-risk template for a score of at least
    60, the moderate template for a score of at least 30 and below 60,
    and the low template below 30. *)
Theorem generate_explanation_fallback (self : ExplanationEngine)
    (risk_score : Q) (risk_level : string)
    (model_reasons : list (string * Models.reason))
    (citizen_data : CitizenCase.t) :
  service_fails self risk_score risk_level model_reasons citizen_data →
  let text :=
    explanation (generate_explanation self risk_score risk_level
                   model_reasons citizen_data) in
  ((60 <= risk_score)%Q ∧ text = high_template (py_int risk_score))
  ∨ ((30 <= risk_score)%Q ∧ (risk_score < 60)%Q
     ∧ text = moderate_template (py_int risk_score))
  ∨ ((risk_score < 30)%Q ∧ text = low_template (py_int risk_score)).
Proof.
  intros Hfail text. subst text.
  rewrite generate_explanation_uses_mock by done.
  apply mock_explanation_thresholds.
Qed.

End ExplanationProperties.

Lemma generate_explanation_fallback_witness :
  service_fails failing_engine (755 # 10) "high" [] sample_case
  ∧ (((60 <= 755 # 10)%Q
      ∧ Explanation.explanation
          (Explanation.generate_explanation failing_engine (755 # 10) "high"
             [] sample_case)
        = high_template (py_int (755 # 10)))
     ∨ ((30 <= 755 # 10)%Q ∧ (755 # 10 < 60)%Q
        ∧ Explanation.explanation
            (Explanation.generate_explanation failing_engine (755 # 10)
               "high" [] sample_case)
          = moderate_template (py_int (755 # 10)))
     ∨ ((755 # 10 < 30)%Q
        ∧ Explanation.explanation
            (Explanation.generate_explanation failing_engine (755 # 10)
               "high" [] sample_case)
          = low_template (py_int (755 # 10)))).
Proof.
  assert (Hfail : service_fails failing_engine (755 # 10) "high" []
                    sample_case).
  { eapply attempt_raises; reflexivity. }
  split; [exact Hfail|].
  exact (generate_explanation_fallback failing_engine (755 # 10) "high" []
           sample_case Hfail).
Defined.

(** ** GET /cases *)

Section GetCasesProperties.
Import App.

Lemma filter_by (wanted : option string) (key : Case → string)
    (cases : list Case) :
  (if truthy wanted then filter (λ c, Some (key c) = wanted) cases else cases)
  = filter (λ c, filter_accepts wanted (key c)) cases.
Proof.
  destruct (truthy wanted) eqn:Ht.
  - apply list_filter_iff. intros c. unfold filter_accepts.
    rewrite Ht. split; [auto|]. intros [?|?]; [discriminate|done].
  - symmetry. induction cases as [|c cases IH]; [done|].
    rewrite filter_cons, decide_True by (by left). by rewrite IH.
Qed.

Lemma get_cases_filter (st rl : option string) (cases : list Case) :
  (let filtered_cases := cases in
   let filtered_cases :=
     if truthy st then filter (λ c, Some (status c) = st) filtered_cases
     else filtered_cases in
   if truthy rl then filter (λ c, Some (risk_level c) = rl) filtered_cases
   else filtered_cases)
  = filter (λ c, filter_accepts st (status c)
                 ∧ filter_accepts rl (risk_level c)) cases.
Proof.
  cbv zeta. rewrite (filter_by rl risk_level), (filter_by st status).
  rewrite list_filter_filter. apply list_filter_iff. intros c. tauto.
Qed.

(** C8, as stated, fails: with two stored cases, [?limit=1] is answered
    with both. *)
Lemma get_cases_ignores_limit : ¬ get_cases_truncates.
Proof.
  intros H.
  specialize (H {| q_status := None; q_risk_level := None;
                   q_limit := Some 1%Z |} two_cases 1%Z eq_refl).
  vm_compute in H. by apply H.
Qed.

(** C8 (amended). GET /cases of backend/app.py and step4_backend_api.py
    takes status and risk_level as filters: for every stored case list
    the response is exactly the stored cases that match the status and
    risk_level given (an absent or empty filter matches every case), in
    stored order; these handlers declare no limit, and a limit in the
    query changes nothing in the response. *)
Theorem get_cases_spec (q : CasesQuery) (self : State) :
  GET_cases q self = filter (case_matches q) (cases_db self)
  ∧ GET_cases q self
    = GET_cases {| q_status := q_status q; q_risk_level := q_risk_level q;
                   q_limit := None |} self.
Proof.
  split; [|reflexivity].
  unfold GET_cases, get_cases, case_matches. apply get_cases_filter.
Qed.

(** *** backend/main.py *)

Lemma insert_newest_perm (c : Case) (cases : list Case) :
  Main.insert_newest c cases ≡ₚ c :: cases.
Proof.
  induction cases as [|d cases IH]; simpl; [done|].
  destruct (String.ltb _ _); [|done].
  rewrite IH. apply Permutation_swap.
Qed.

Lemma sorted_newest_first_perm (cases : list Case) :
  Main.sorted_newest_first cases ≡ₚ cases.
Proof.
  induction cases as [|c cases IH]; simpl; [done|].
  rewrite insert_newest_perm. by rewrite IH.
Qed.

(** In backend/main.py the handler does declare [limit]: a limit that is
    not negative bounds the response, which holds only stored cases
    that match the filters. *)
Lemma main_get_cases_limit (q : CasesQuery) (cases : list Case) (n : Z) :
  q_limit q = Some n → (0 ≤ n)%Z →
  Main.GET_cases q cases
  = take (Z.to_nat n)
         (Main.sorted_newest_first (filter (case_matches q) cases))
  ∧ (Z.of_nat (length (Main.GET_cases q cases)) ≤ n)%Z
  ∧ ∀ c, c ∈ Main.GET_cases q cases → c ∈ cases ∧ case_matches q c.
Proof.
  intros Hq Hn.
  assert (Heq : Main.GET_cases q cases
                = take (Z.to_nat n)
                    (Main.sorted_newest_first
                       (filter (case_matches q) cases))).
  { unfold Main.GET_cases, Main.get_cases, Main.slice_to, case_matches.
    rewrite Hq. simpl. rewrite get_cases_filter.
    destruct (Z.leb_spec 0 n); [done|lia]. }
  split; [done|]. rewrite Heq. split.
  - rewrite length_take. lia.
  - intros c Hc. apply elem_of_take in Hc as (i & Hc & _).
    apply list_elem_of_lookup_2 in Hc.
    rewrite sorted_newest_first_perm in Hc.
    apply list_elem_of_filter in Hc. tauto.
Qed.

End GetCasesProperties.

(** ** Case identifiers (backend/app.py, analyze_case)

    The identifier ends with the number of cases stored before it, after
    the last underscore, so two cases stored at different positions
    never share one. *)

Section CaseIds.

Lemma has_char_app_here (c : ascii) (a b : string) :
  has_char c (a ++ String c b) = true.
Proof.
  induction a as [|d a IH]; simpl.
  - by rewrite Ascii.eqb_refl.
  - rewrite IH. by destruct (Ascii.eqb c d).
Qed.

Lemma suffix_after_last (c : ascii) (a b d1 d2 : string) :
  has_char c d1 = false → has_char c d2 = false →
  a ++ String c d1 = b ++ String c d2 → d1 = d2.
Proof.
  intros H1 H2. revert b.
  induction a as [|x a IH]; intros [|y b]; simpl; intros Heq.
  - by injection Heq.
  - injection Heq as <- ->. by rewrite has_char_app_here in H1.
  - injection Heq as -> <-. by rewrite has_char_app_here in H2.
  - injection Heq as _ Heq. eauto.
Qed.

Lemma pretty_N_char_not_underscore (x : N) : Ascii.eqb "_" (pretty_N_char x) = false.
Proof. unfold pretty_N_char. by repeat case_match. Qed.

Lemma pretty_N_go_no_underscore (x : N) (s : string) :
  has_char "_" s = false → has_char "_" (pretty_N_go x s) = false.
Proof.
  revert s. induction (N.lt_wf_0 x) as [x _ IH]; intros s Hs.
  assert (x = 0 ∨ 0 < x)%N as [->|Hpos] by lia.
  - by rewrite pretty_N_go_0.
  - rewrite pretty_N_go_step by done. apply IH.
    + by apply N.div_lt.
    + cbn [has_char]. by rewrite pretty_N_char_not_underscore.
Qed.

Lemma pretty_nat_no_underscore (n : nat) : has_char "_" (pretty n) = false.
Proof.
  unfold pretty, pretty_nat, pretty, pretty_N.
  case_decide; [done|]. by apply pretty_N_go_no_underscore.
Qed.

Lemma new_case_id_inj (now1 now2 : string) (n1 n2 : nat) :
  App.new_case_id now1 n1 = App.new_case_id now2 n2 → n1 = n2.
Proof.
  unfold App.new_case_id. intros Heq.
  apply (inj (String.app "CASE_")) in Heq.
  apply suffix_after_last in Heq; auto using pretty_nat_no_underscore.
  by apply (inj pretty) in Heq.
Qed.

End CaseIds.

(** ** Cases and approvals (backend/app.py, step4_backend_api.py) *)

Section AppProperties.
Import App.

(** [approve_case] by cases. *)
Lemma approve_case_eq (request : ApprovalRequest.t)
    (now_case now_record : string) (s : State) :
  approve_case request now_case now_record s
  = match list_find (λ c, case_id c = ApprovalRequest.case_id request)
                    (cases_db s) with
    | None => (inl (HTTPException 404 "Case not found"), s)
    | Some (i, c) =>
      if String.eqb (status c) "PENDING_APPROVAL" then
        let c' := record_decision c request now_case in
        (inr (approval_response_of request now_record),
         {| risk_model := risk_model s;
            explanation_engine := explanation_engine s;
            cases_db := <[i := c']> (cases_db s);
            approvals_db :=
              (approvals_db s
               ++ [approval_record_of request c' now_record])%list |})
      else (inl (already_processed (status c)), s)
    end.
Proof.
  unfold approve_case. run_unfold.
  destruct (list_find _ _) as [[i c]|]; [|done].
  by destruct (String.eqb (status c) "PENDING_APPROVAL").
Qed.

(** [analyze_case] either stores one new pending case, named after the
    number of cases stored before it, or stores nothing; it never
    touches the approvals. *)
Lemma analyze_case_effect (body : CitizenCase.t) (now_id now_ts : string)
    (s : State) :
  let r := analyze_case body now_id now_ts s in
  approvals_db (snd r) = approvals_db s
  ∧ ((∃ e, fst r = inl e ∧ cases_db (snd r) = cases_db s)
     ∨ (∃ c, fst r = inr c
             ∧ cases_db (snd r) = (cases_db s ++ [c])%list
             ∧ case_id c = new_case_id now_id (length (cases_db s))
             ∧ status c = "PENDING_APPROVAL"
             ∧ (0 <= risk_score c <= 100)%Q)).
Proof.
  unfold analyze_case. run_unfold. cbv zeta.
  destruct (risk_model s) as [rm|]; [|split; [done|left; eauto]].
  destruct (explanation_engine s) as [ee|]; [|split; [done|left; eauto]].
  destruct (Models.prepare_features [body] rm) as [[e|X] rm'] eqn:Hprep;
    simpl; [split; [done|left; eauto]|].
  destruct (Models.predict_risk rm' X) as [e|[[levels scores] imp]] eqn:Hpred;
    simpl; [split; [done|left; eauto]|].
  destruct levels as [|level levels]; simpl; [split; [done|left; eauto]|].
  destruct scores as [|score scores]; simpl; [split; [done|left; eauto]|].
  destruct (Models.get_model_reasons rm' X _) as [e|reasons];
    simpl; [split; [done|left; eauto]|].
  split; [done|right]. eexists. split; [done|]. simpl.
  do 3 (split; [done|]).
  unfold Models.predict_risk in Hpred.
  repeat case_match; try discriminate.
  injection Hpred as _ Hscores _.
  assert (Hall : Forall (λ x, (0 <= x <= 100)%Q) (score :: scores)).
  { rewrite <- Hscores. apply np_clip_0_100. }
  by apply Forall_cons in Hall as [? _].
Qed.

(** *** The invariant *)

Lemma valid_decision (r : ApprovalRequest.t) :
  valid_ApprovalRequest r = true →
  ApprovalRequest.decision r = "APPROVE"
  ∨ ApprovalRequest.decision r = "REJECT".
Proof.
  unfold valid_ApprovalRequest, str_in. cbn [existsb]. intros H.
  destruct (String.eqb_spec (ApprovalRequest.decision r) "APPROVE"); [auto|].
  destruct (String.eqb_spec (ApprovalRequest.decision r) "REJECT"); [auto|].
  discriminate.
Qed.

Lemma approvals_for_snoc (id : string) (approvals : list ApprovalRecord.t)
    (a : ApprovalRecord.t) :
  approvals_for id (approvals ++ [a])
  = (approvals_for id approvals
     ++ (if decide (ApprovalRecord.case_id a = id) then [a] else []))%list.
Proof.
  unfold approvals_for. by rewrite filter_app.
Qed.

Lemma approvals_for_none (id : string) (approvals : list ApprovalRecord.t) :
  (∀ a, a ∈ approvals → ApprovalRecord.case_id a ≠ id) →
  approvals_for id approvals = [].
Proof.
  unfold approvals_for. induction approvals as [|a approvals IH]; [done|].
  intros Hnot. rewrite filter_cons, decide_False.
  - apply IH. intros b Hb. apply Hnot. by right.
  - apply Hnot. by left.
Qed.

Lemma consistent_unique_ids (s : State) (i j : nat) (c d : Case) :
  consistent s → cases_db s !! i = Some c → cases_db s !! j = Some d →
  case_id c = case_id d → i = j.
Proof.
  intros [Hcases _] Hc Hd Heq.
  destruct (Hcases i c Hc) as [[now1 H1] _].
  destruct (Hcases j d Hd) as [[now2 H2] _].
  rewrite H1, H2 in Heq. by apply new_case_id_inj in Heq.
Qed.

Lemma consistent_startup rm ee : consistent (startup rm ee).
Proof.
  split; simpl.
  - intros j c H. by rewrite lookup_nil in H.
  - intros a H. by apply elem_of_nil in H.
Qed.

Lemma consistent_analyze_case (body : CitizenCase.t) (now_id now_ts : string)
    (s : State) :
  consistent s → consistent (snd (POST_analyze_case body now_id now_ts s)).
Proof.
  intros Hs. unfold POST_analyze_case.
  destruct (valid_CitizenCase body); [|done].
  destruct (analyze_case_effect body now_id now_ts s) as [Happ Hcases].
  destruct (analyze_case body now_id now_ts s) as [r s']. simpl in *.
  destruct Hs as [Hold Hbelong].
  destruct Hcases as [(e & _ & Hsame)|(c & _ & Hnew & Hid & Hst & _)].
  { split; rewrite ?Happ, ?Hsame; done. }
  split; rewrite Happ, Hnew.
  - intros j d Hj. apply lookup_app_Some in Hj as [Hj|[Hlen Hj]]; [eauto|].
    apply list_lookup_singleton_Some in Hj as [Hj0 <-].
    assert (j = length (cases_db s)) as -> by lia.
    split; [eauto|]. left. split; [done|].
    apply approvals_for_none. intros a Ha Heq. destruct (Hbelong a Ha) as (k & d & Hk & Hkid).
    destruct (Hold k d Hk) as [[now Hknow] _].
    rewrite Heq, Hid, Hknow in Hkid. apply new_case_id_inj in Hkid.
    apply lookup_lt_Some in Hk. lia.
  - intros a Ha. destruct (Hbelong a Ha) as (k & d & Hk & Hkid).
    exists k, d. split; [|done]. by apply lookup_app_l_Some.
Qed.

Lemma consistent_approve_case (body : ApprovalRequest.t)
    (now_case now_record : string) (s : State) :
  consistent s →
  consistent (snd (POST_approve_case body now_case now_record s)).
Proof.
  intros Hs. unfold POST_approve_case.
  destruct (valid_ApprovalRequest body) eqn:Hvalid; [|done].
  apply valid_decision in Hvalid. rewrite approve_case_eq.
  destruct (list_find _ _) as [[i c]|] eqn:Hfind; [|done].
  destruct (String.eqb_spec (status c) "PENDING_APPROVAL") as [Hpend|];
    [|done].
  apply list_find_Some in Hfind as (Hi & Hid & _).
  pose proof Hs as [Hold Hbelong]. simpl.
  assert (Hnone : approvals_for (case_id c) (approvals_db s) = []).
  { destruct (Hold i c Hi) as [_ [[_ H]|[[H|H] _]]]; [done|..];
      rewrite Hpend in H; discriminate. }
  split; simpl.
  - intros j d Hj. destruct (decide (j = i)) as [->|Hne].
    + rewrite list_lookup_insert_eq in Hj by (by eapply lookup_lt_Some).
      injection Hj as <-. simpl.
      split; [by destruct (Hold i c Hi) as [? _]|].
      right. split; [done|]. simpl.
      exists (approval_record_of body (record_decision c body now_case)
                now_record).
      split; [|done].
      rewrite approvals_for_snoc, Hnone. simpl. by rewrite decide_True.
    + rewrite list_lookup_insert_ne in Hj by done.
      assert (Hother : case_id d ≠ ApprovalRequest.case_id body).
      { intros Heq. apply Hne.
        apply (consistent_unique_ids s j i d c); congruence. }
      destruct (Hold j d Hj) as [Hname Hcount]. split; [done|].
      unfold pending_without_record, decided_with_one_record in *.
      rewrite approvals_for_snoc. simpl.
      rewrite decide_False by done. by rewrite app_nil_r.
  - intros a Ha. apply elem_of_app in Ha as [Ha|Ha].
    + destruct (Hbelong a Ha) as (k & d & Hk & Hkid).
      destruct (decide (k = i)) as [->|Hne].
      * exists i, (record_decision c body now_case). split.
        -- apply list_lookup_insert_eq. by eapply lookup_lt_Some.
        -- simpl. congruence.
      * exists k, d. by rewrite list_lookup_insert_ne.
    + apply list_elem_of_singleton in Ha as ->.
      exists i, (record_decision c body now_case). split; [|done].
      apply list_lookup_insert_eq. by eapply lookup_lt_Some.
Qed.

Lemma consistent_serve (s : State) (r : request) :
  consistent s → consistent (serve s r).
Proof.
  destruct r; simpl;
    auto using consistent_analyze_case, consistent_approve_case.
Qed.

Lemma consistent_reachable (s : State) : reachable s → consistent s.
Proof.
  intros (rm & ee & requests & ->).
  generalize (consistent_startup rm ee). generalize (startup rm ee).
  induction requests as [|r requests IH]; intros s0 Hs0; simpl; [done|].
  apply IH. by apply consistent_serve.
Qed.

(** C3. In every state reached from start-up by any sequence of
    POST /analyze_case and POST /approve_case requests, every stored
    case is either pending with no approval record under its case_id, or
    decided (its status is then the officer's decision, APPROVE or
    REJECT) with exactly one approval record under its case_id, which
    carries that decision; and no case_id has more than one approval
    record, so no case is approved or rejected twice. *)
Theorem reachable_one_record_per_decided_case (s : State) :
  reachable s →
  (∀ c, c ∈ cases_db s →
     (status c = "PENDING_APPROVAL"
      ∧ approvals_for (case_id c) (approvals_db s) = [])
     ∨ ((status c = "APPROVE" ∨ status c = "REJECT")
        ∧ ∃ a, approvals_for (case_id c) (approvals_db s) = [a]
               ∧ ApprovalRecord.decision a = status c))
  ∧ (∀ id, (length (approvals_for id (approvals_db s)) ≤ 1)%nat).
Proof.
  intros Hreach. apply consistent_reachable in Hreach as [Hcases Hbelong].
  split.
  - intros c Hc. apply list_elem_of_lookup in Hc as [j Hj].
    by destruct (Hcases j c Hj) as [_ ?].
  - intros id.
    destruct (approvals_for id (approvals_db s)) as [|a rest] eqn:Hfor;
      [simpl; lia|].
    assert (Ha : a ∈ approvals_for id (approvals_db s)).
    { rewrite Hfor. by left. }
    apply list_elem_of_filter in Ha as [Hid Ha].
    destruct (Hbelong a Ha) as (j & c & Hj & Hc).
    rewrite Hid in Hc. rewrite <- Hfor, <- Hc.
    destruct (Hcases j c Hj) as [_ [[_ ->]|[_ (b & -> & _)]]]; simpl; lia.
Qed.

(** *** A second decision on the same case *)

Lemma decision_not_pending (r : ApprovalRequest.t) :
  valid_ApprovalRequest r = true →
  String.eqb (ApprovalRequest.decision r) "PENDING_APPROVAL" = false.
Proof. intros H. by destruct (valid_decision r H) as [->| ->]. Qed.

(** A first successful POST /approve_case on a case makes every later
    one on it a 400 that changes nothing. *)
Lemma app_second_call_conflict (s s1 : State) (body : ApprovalRequest.t)
    (now_case now_record : string) (resp : ApprovalResponse.t) :
  POST_approve_case body now_case now_record s = (inr resp, s1) →
  (∃ c, get_case (ApprovalRequest.case_id body) s1 = inr c
        ∧ status c = ApprovalRequest.decision body
        ∧ officer_id c = Some (ApprovalRequest.officer_id body)
        ∧ officer_notes c = Some (ApprovalRequest.officer_notes body)
        ∧ approval_timestamp c = Some now_case)
  ∧ ∀ body' now_case' now_record',
      ApprovalRequest.case_id body' = ApprovalRequest.case_id body →
      POST_approve_case body' now_case' now_record' s1
      = (inl (if valid_ApprovalRequest body'
              then already_processed (ApprovalRequest.decision body)
              else RequestValidationError), s1).
Proof.
  unfold POST_approve_case.
  destruct (valid_ApprovalRequest body) eqn:Hvalid; [|discriminate].
  rewrite approve_case_eq.
  destruct (list_find _ _) as [[i c]|] eqn:Hfind; [|discriminate].
  destruct (String.eqb (status c) "PENDING_APPROVAL"); [|discriminate].
  cbv zeta. intros [= <- <-].
  assert (Hfind1 :
    list_find (λ c, case_id c = ApprovalRequest.case_id body)
      (<[i := record_decision c body now_case]> (cases_db s))
    = Some (i, record_decision c body now_case)).
  { eapply list_find_insert_same; [done|].
    apply list_find_Some in Hfind as (_ & Hid & _). exact Hid. }
  split.
  - exists (record_decision c body now_case).
    unfold get_case. simpl. by rewrite Hfind1.
  - intros body' now_case' now_record' Hsame.
    destruct (valid_ApprovalRequest body'); [|done].
    rewrite approve_case_eq, Hsame. simpl. rewrite Hfind1. simpl.
    by rewrite decision_not_pending.
Qed.

End AppProperties.

(** C2. A second approval of a case_id that a first call decided fails
    with the already-processed conflict and changes nothing, so the
    status, officer, notes and time the first call recorded stay as they
    were: for [process_human_approval] the second call raises the
    already-processed error whatever its arguments, and the record found
    for the case is the one the first call returned; for
    POST /approve_case the second request is answered 400 "Case already
    processed" (422 when its decision is not APPROVE or REJECT), and the
    case read back carries the first decision. *)
Theorem second_approval_is_conflict :
  (∀ (self self1 : Workflow.ApprovalWorkflow)
     (case_id officer_id decision : string) (officer_notes : option string)
     (now_approved now_audit : string) (r : Workflow.approval),
     Workflow.process_human_approval case_id officer_id decision
       officer_notes now_approved now_audit self = (inr r, self1) →
     (∃ i, list_find (λ a, Workflow.case_id a = case_id)
             (Workflow.approval_log self1) = Some (i, r))
     ∧ (Workflow.status r = Workflow.APPROVED
        ∨ Workflow.status r = Workflow.REJECTED)
     ∧ Workflow.human_decision r = Some decision
     ∧ Workflow.officer_id r = Some officer_id
     ∧ Workflow.officer_notes r = officer_notes
     ∧ Workflow.approved_at r = Some now_approved
     ∧ ∀ officer_id' decision' officer_notes' now_approved' now_audit',
         Workflow.process_human_approval case_id officer_id' decision'
           officer_notes' now_approved' now_audit' self1
         = (inl (Workflow.AlreadyProcessed case_id (Workflow.status r)),
            self1))
  ∧ (∀ (s s1 : App.State) (body : App.ApprovalRequest.t)
       (now_case now_record : string) (resp : App.ApprovalResponse.t),
       App.POST_approve_case body now_case now_record s = (inr resp, s1) →
       (∃ c, App.get_case (App.ApprovalRequest.case_id body) s1 = inr c
             ∧ App.status c = App.ApprovalRequest.decision body
             ∧ App.officer_id c = Some (App.ApprovalRequest.officer_id body)
             ∧ App.officer_notes c
               = Some (App.ApprovalRequest.officer_notes body)
             ∧ App.approval_timestamp c = Some now_case)
       ∧ ∀ body' now_case' now_record',
           App.ApprovalRequest.case_id body'
           = App.ApprovalRequest.case_id body →
           App.POST_approve_case body' now_case' now_record' s1
           = (inl (if App.valid_ApprovalRequest body'
                   then already_processed (App.ApprovalRequest.decision body)
                   else App.RequestValidationError), s1)).
Proof.
  split.
  - apply workflow_second_call_conflict.
  - apply app_second_call_conflict.
Qed.

(** *** A run of the service *)

Example demo_state_cases :
  (λ c, (App.case_id c, App.status c, App.risk_score c, App.risk_level c,
         App.recommended_action c)) <$> App.cases_db demo_state
  = [("CASE_20260101120000_0", "APPROVE", 100 # 1, "high", "URGENT_REVIEW");
     ("CASE_20260101120000_1", "PENDING_APPROVAL", 100 # 1, "high",
      "URGENT_REVIEW")]
  ∧ (λ a, (App.ApprovalRecord.case_id a, App.ApprovalRecord.decision a,
           App.ApprovalRecord.officer_id a)) <$> App.approvals_db demo_state
    = [("CASE_20260101120000_0", "APPROVE", "OFFICER_123")].
Proof. split; reflexivity. Qed.

Lemma reachable_one_record_per_decided_case_witness :
  App.reachable demo_state
  ∧ (∀ c, c ∈ App.cases_db demo_state →
       (App.status c = "PENDING_APPROVAL"
        ∧ approvals_for (App.case_id c) (App.approvals_db demo_state) = [])
       ∨ ((App.status c = "APPROVE" ∨ App.status c = "REJECT")
          ∧ ∃ a, approvals_for (App.case_id c) (App.approvals_db demo_state)
                 = [a]
                 ∧ App.ApprovalRecord.decision a = App.status c))
  ∧ (∀ id,
       (length (approvals_for id (App.approvals_db demo_state)) ≤ 1)%nat).
Proof.
  assert (Hreach : App.reachable demo_state).
  { exists (Some toy_model), (Some failing_engine), demo_requests.
    reflexivity. }
  split; [exact Hreach|].
  exact (reachable_one_record_per_decided_case demo_state Hreach).
Defined.

Lemma second_approval_is_conflict_witness :
  (∃ r, Workflow.process_human_approval "CASE_001" "OFFICER_123" "APPROVE"
          (Some "Reviewed documents") "t1" "t2" pending_workflow
        = (inr r, decided_workflow))
  ∧ Workflow.process_human_approval "CASE_001" "OFFICER_456" "REJECT" None
      "t3" "t4" decided_workflow
    = (inl (Workflow.AlreadyProcessed "CASE_001" Workflow.APPROVED),
       decided_workflow)
  ∧ (∃ resp, App.POST_approve_case approve_first "t1" "t2" analyzed_state
             = (inr resp, approved_state))
  ∧ App.POST_approve_case reject_first "t3" "t4" approved_state
    = (inl (already_processed "APPROVE"), approved_state).
Proof.
  assert (Hwf : Workflow.process_human_approval "CASE_001" "OFFICER_123"
                  "APPROVE" (Some "Reviewed documents") "t1" "t2"
                  pending_workflow
                = (inr (Workflow.record_decision
                          (pending_request "CASE_001" "URGENT_REVIEW"
                             (755 # 10) "Your case needs review" "t0")
                          "OFFICER_123" "APPROVE" (Some "Reviewed documents")
                          "t1"),
                   decided_workflow)) by reflexivity.
  assert (Happ : App.POST_approve_case approve_first "t1" "t2" analyzed_state
                 = (inr (approval_response_of approve_first "t2"),
                    approved_state)) by reflexivity.
  split; [eexists; exact Hwf|]. split.
  - destruct (proj1 second_approval_is_conflict _ _ _ _ _ _ _ _ _ Hwf)
      as (_ & _ & _ & _ & _ & _ & Hsecond).
    exact (Hsecond "OFFICER_456" "REJECT" None "t3" "t4").
  - split; [eexists; exact Happ|].
    destruct (proj2 second_approval_is_conflict _ _ _ _ _ _ Happ)
      as (_ & Hsecond).
    exact (Hsecond reject_first "t3" "t4" eq_refl).
Defined.

(** ** Worked examples *)

Example format_score : format_f 1 false (755 # 10) = "75.5".
Proof. reflexivity. Qed.

Example format_income : format_f 2 true (123456789 # 100) = "1,234,567.89".
Proof. reflexivity. Qed.

Example format_small_negative : format_f 1 false (-4 # 100) = "-0.0".
Proof. reflexivity. Qed.

Example strip_text : strip ("  hello world " ++ nl) = "hello world".
Proof. reflexivity. Qed.

Example mock_moderate :
  Explanation.explanation
    (Explanation.generate_explanation failing_engine (45 # 1) "medium" []
       sample_case)
  = "Your case shows a moderate risk score (45). Please verify your income information is up to date. A case officer will review your application within 10 business days.".
Proof. reflexivity. Qed.

(** The specification's pairs for a STANDARD_REVIEW recommendation. *)
Example standard_review_approve :
  Workflow._check_decision_alignment
    (Workflow.record_decision
       (pending_request "CASE_002" "STANDARD_REVIEW" (45 # 1) "text" "t0")
       "OFFICER_123" "APPROVE" None "t1") = "ALIGNED".
Proof. reflexivity. Qed.

Example standard_review_reject :
  Workflow._check_decision_alignment
    (Workflow.record_decision
       (pending_request "CASE_002" "STANDARD_REVIEW" (45 # 1) "text" "t0")
       "OFFICER_123" "REJECT" None "t1") = "ALIGNED".
Proof. reflexivity. Qed.

(** In backend/main.py a negative limit drops cases from the end. *)
Example main_negative_limit :
  App.case_id <$> Main.get_cases None None (Some (-1)%Z)
                    (App.cases_db demo_state)
  = ["CASE_20260101120000_0"].
Proof. reflexivity. Qed.

(** * Further properties *)

(** ** The approval workflow: what a decision changes and what it keeps *)

Section WorkflowRunProperties.
Import Workflow.

Lemma filter_insert_gain {A} (P : A → Prop) `{!∀ x, Decision (P x)}
    (l : list A) (i : nat) (x y : A) :
  l !! i = Some x → ¬ P x → P y →
  length (filter P (<[i := y]> l)) = S (length (filter P l)).
Proof.
  revert i. induction l as [|z l IH]; intros [|i] Hi Hx Hy; simplify_eq/=.
  - rewrite !filter_cons, decide_True, decide_False by done. done.
  - rewrite !filter_cons. case_decide; simpl; by rewrite (IH i).
Qed.

Lemma filter_insert_loss {A} (P : A → Prop) `{!∀ x, Decision (P x)}
    (l : list A) (i : nat) (x y : A) :
  l !! i = Some x → P x → ¬ P y →
  length (filter P l) = S (length (filter P (<[i := y]> l))).
Proof.
  revert i. induction l as [|z l IH]; intros [|i] Hi Hx Hy; simplify_eq/=.
  - rewrite !filter_cons, decide_True, decide_False by done. done.
  - rewrite !filter_cons. case_decide; simpl; by rewrite (IH i).
Qed.

(** X1. Whatever its arguments and whether it succeeds or raises,
    [process_human_approval] keeps the number of records, and every
    record keeps its case_id, AI recommendation, AI risk score, AI
    explanation and creation time: a decision never rewrites what the
    analysis logged. *)
Theorem process_keeps_ai_fields (self : ApprovalWorkflow)
    (case_id officer_id decision : string) (officer_notes : option string)
    (now_approved now_audit : string) :
  let self1 :=
    snd (process_human_approval case_id officer_id decision officer_notes
           now_approved now_audit self) in
  length (approval_log self1) = length (approval_log self)
  ∧ ∀ j a, approval_log self !! j = Some a →
           ∃ b, approval_log self1 !! j = Some b ∧ same_ai_fields a b.
Proof.
  intros self1. subst self1.
  destruct (process_human_approval_outcome self case_id officer_id decision
              officer_notes now_approved now_audit)
    as [Hf|i a Hf Hst|i a Hf Hst Hd|i a Hf Hst Hd]; simpl;
    try (split; [done|]; intros j b Hj; exists b; by repeat split).
  split; [apply length_insert|]. intros j b Hj.
  apply list_find_Some in Hf as (Hi & _ & _).
  destruct (decide (j = i)) as [->|Hne].
  - rewrite list_lookup_insert_eq by (by eapply lookup_lt_Some).
    eexists; split; [done|]. simplify_eq. by repeat split.
  - rewrite list_lookup_insert_ne by done. exists b. by repeat split.
Qed.

(** X2. A record that stands in the log behind an earlier record with
    the same case_id is never changed by [process_human_approval],
    whatever the arguments: a decision always lands on the first record
    of its case_id, so a duplicate request stays as it was created. *)
Theorem process_never_changes_shadowed_record (self : ApprovalWorkflow)
    (case_id officer_id decision : string) (officer_notes : option string)
    (now_approved now_audit : string) (i j : nat) (a b : approval) :
  approval_log self !! i = Some b → approval_log self !! j = Some a →
  (i < j)%nat → Workflow.case_id b = Workflow.case_id a →
  approval_log
    (snd (process_human_approval case_id officer_id decision officer_notes
            now_approved now_audit self)) !! j = Some a.
Proof.
  intros Hi Hj Hlt Hsame.
  destruct (process_human_approval_outcome self case_id officer_id decision
              officer_notes now_approved now_audit)
    as [Hf|k c Hf Hst|k c Hf Hst Hd|k c Hf Hst Hd]; simpl; try done.
  apply list_find_Some in Hf as (Hk & Hid & Hfirst).
  destruct (decide (j = k)) as [->|Hne].
  - exfalso. simplify_eq. apply (Hfirst i b Hi Hlt). congruence.
  - by rewrite list_lookup_insert_ne.
Qed.

Lemma well_formed_decision (a : approval)
    (officer_id decision : string) (officer_notes : option string)
    (now : string) :
  str_in decision ["APPROVE"; "REJECT"] = true →
  record_well_formed (record_decision a officer_id decision officer_notes now)
  ∧ status (record_decision a officer_id decision officer_notes now)
    ≠ PENDING_APPROVAL.
Proof.
  unfold str_in, record_well_formed. cbn [existsb]. simpl. intros Hd.
  destruct (String.eqb_spec decision "APPROVE") as [->|]; [by eauto|].
  destruct (String.eqb_spec decision "REJECT") as [->|]; [by eauto|].
  discriminate.
Qed.

Lemma alignment_values (a : approval) :
  _check_decision_alignment a = "OVERRIDE"
  ∨ _check_decision_alignment a = "ALIGNED".
Proof. destruct (alignment_cases a) as [[_ ->]|[_ ->]]; auto. Qed.

Lemma workflow_invariant_after (self : ApprovalWorkflow) (c : workflow_call) :
  workflow_invariant self → workflow_invariant (workflow_after self c).
Proof.
  intros (Hwf & Hcount & Hlines).
  destruct c as [cid rec score expl now|cid off d notes t1 t2];
    cbn [workflow_after].
  - unfold create_approval_request. run_unfold. cbn [snd].
    split; [|split; [|done]]; cbn [approval_log printed].
    + apply Forall_app. split; [done|]. by repeat constructor.
    + rewrite filter_app, length_app, Hcount.
      rewrite filter_cons, decide_False by (intros H; by apply H). simpl. lia.
  - destruct (process_human_approval_outcome self cid off d notes t1 t2)
      as [Hf|i a Hf Hst|i a Hf Hst Hd|i a Hf Hst Hd];
      unfold workflow_invariant; cbn [snd approval_log printed];
      try by repeat split.
    destruct (well_formed_decision a off d notes t1 Hd) as [Hnew Hdec].
    apply list_find_Some in Hf as (Hi & _ & _).
    split; [by apply Forall_insert|]. split.
    + rewrite length_app. simpl.
      rewrite (filter_insert_gain _ _ i a) by (done || by intros H; apply H).
      lia.
    + apply Forall_app. split; [done|].
      apply Forall_cons. split; [|done]. apply alignment_values.
Qed.

(** X3. In every state a workflow reaches from empty by any sequence of
    [create_approval_request] and [process_human_approval] calls
    (failing ones included): a pending record has no human decision,
    officer, notes or approval time; an APPROVED record carries the
    decision APPROVE and a REJECTED one REJECT, each with its officer and
    approval time; the number of audit lines printed equals the number
    of decided records, and every audit line is marked OVERRIDE or
    ALIGNED. *)
Theorem workflow_reachable_invariant (self : ApprovalWorkflow) :
  workflow_reachable self →
  Forall record_well_formed (approval_log self)
  ∧ length (printed self)
    = length (filter (λ a, status a ≠ PENDING_APPROVAL) (approval_log self))
  ∧ Forall (λ line, decision_alignment line = "OVERRIDE"
                    ∨ decision_alignment line = "ALIGNED") (printed self).
Proof.
  intros [calls ->].
  assert (H0 : workflow_invariant __init__) by (by repeat split).
  revert H0. generalize __init__.
  induction calls as [|c calls IH]; intros s0 Hs0; simpl; [done|].
  apply IH. by apply workflow_invariant_after.
Qed.

(** X4. A successful [process_human_approval] takes exactly one record
    out of [get_pending_approvals]: the pending list gets shorter by
    one, every record still pending was pending before, and the record
    returned is not in it. *)
Theorem process_success_leaves_pending (self self1 : ApprovalWorkflow)
    (case_id officer_id decision : string) (officer_notes : option string)
    (now_approved now_audit : string) (r : approval) :
  process_human_approval case_id officer_id decision officer_notes
    now_approved now_audit self = (inr r, self1) →
  length (get_pending_approvals self)
  = S (length (get_pending_approvals self1))
  ∧ (∀ a, a ∈ get_pending_approvals self1 → a ∈ get_pending_approvals self)
  ∧ r ∉ get_pending_approvals self1.
Proof.
  intros Hrun.
  pose proof (process_human_approval_outcome self case_id officer_id
                decision officer_notes now_approved now_audit) as Hout.
  rewrite Hrun in Hout. inversion Hout as [| | |i a Hf Hst Hd a' Hr].
  destruct (well_formed_decision a officer_id decision officer_notes
              now_approved Hd) as [_ Hdec]. fold a' in Hdec.
  apply list_find_Some in Hf as (Hi & _ & _).
  unfold get_pending_approvals. simpl. split; [|split].
  - by apply (filter_insert_loss _ _ i a a').
  - intros b Hb. apply list_elem_of_filter in Hb as [Hb Hin].
    apply list_elem_of_filter. split; [done|].
    apply list_elem_of_lookup in Hin as [j Hj].
    destruct (decide (j = i)) as [->|Hne].
    + rewrite list_lookup_insert_eq in Hj by (by eapply lookup_lt_Some).
      congruence.
    + rewrite list_lookup_insert_ne in Hj by done.
      by eapply list_elem_of_lookup_2.
  - intros Hin. by apply list_elem_of_filter in Hin as [? _].
Qed.

(** X5. [get_approval_history] after [create_approval_request]: for a
    case_id that is not the empty text, the history of that case_id is
    the one before followed by the new record, and the history of every
    other non-empty case_id is as before; with no case_id, or with the
    empty text, the history is the whole log. *)
Theorem history_after_create (self : ApprovalWorkflow)
    (case_id ai_recommendation : string) (ai_risk_score : Q)
    (ai_explanation now : string) :
  case_id ≠ "" →
  let self1 :=
    snd (create_approval_request case_id ai_recommendation ai_risk_score
           ai_explanation now self) in
  get_approval_history self1 (Some case_id)
  = (get_approval_history self (Some case_id)
     ++ [pending_request case_id ai_recommendation ai_risk_score
           ai_explanation now])%list
  ∧ (∀ other, other ≠ "" → other ≠ case_id →
       get_approval_history self1 (Some other)
       = get_approval_history self (Some other))
  ∧ get_approval_history self1 None = approval_log self1
  ∧ get_approval_history self1 (Some "") = approval_log self1.
Proof.
  intros Hne self1. subst self1. unfold get_approval_history. simpl.
  split; [|split; [|done]].
  - destruct (String.eqb_spec case_id ""); [done|]. simpl.
    rewrite filter_app, filter_cons, decide_True by done. done.
  - intros other Ho Hdiff.
    destruct (String.eqb_spec other ""); [done|]. simpl.
    rewrite filter_app, filter_cons, decide_False by (simpl; congruence).
    by rewrite app_nil_r.
Qed.

End WorkflowRunProperties.

Lemma process_never_changes_shadowed_record_witness :
  Workflow.approval_log duplicated_workflow !! 0%nat
  = Some (pending_request "CASE_001" "URGENT_REVIEW" (755 # 10) "first" "t0")
  ∧ Workflow.approval_log duplicated_workflow !! 1%nat
    = Some (pending_request "CASE_001" "ROUTINE_REVIEW" (10 # 1) "second"
              "t1")
  ∧ Workflow.approval_log
      (snd (Workflow.process_human_approval "CASE_001" "OFFICER_9" "REJECT"
              None "t2" "t3" duplicated_workflow)) !! 1%nat
    = Some (pending_request "CASE_001" "ROUTINE_REVIEW" (10 # 1) "second"
              "t1").
Proof.
  split; [reflexivity|]. split; [reflexivity|].
  apply (process_never_changes_shadowed_record duplicated_workflow
           "CASE_001" "OFFICER_9" "REJECT" None "t2" "t3" 0 1
           (pending_request "CASE_001" "ROUTINE_REVIEW" (10 # 1) "second"
              "t1")
           (pending_request "CASE_001" "URGENT_REVIEW" (755 # 10) "first"
              "t0")); [reflexivity|reflexivity|lia|reflexivity].
Defined.

Lemma workflow_reachable_invariant_witness :
  workflow_reachable (foldl workflow_after Workflow.__init__ demo_calls)
  ∧ Forall record_well_formed
      (Workflow.approval_log
         (foldl workflow_after Workflow.__init__ demo_calls))
  ∧ length (Workflow.printed
              (foldl workflow_after Workflow.__init__ demo_calls))
    = length (filter (λ a, Workflow.status a ≠ Workflow.PENDING_APPROVAL)
                (Workflow.approval_log
                   (foldl workflow_after Workflow.__init__ demo_calls)))
  ∧ Forall (λ line, Workflow.decision_alignment line = "OVERRIDE"
                    ∨ Workflow.decision_alignment line = "ALIGNED")
      (Workflow.printed (foldl workflow_after Workflow.__init__ demo_calls)).
Proof.
  assert (Hreach : workflow_reachable
                     (foldl workflow_after Workflow.__init__ demo_calls)).
  { exists demo_calls. reflexivity. }
  split; [exact Hreach|].
  exact (workflow_reachable_invariant _ Hreach).
Defined.

Lemma process_success_leaves_pending_witness :
  (∃ r, Workflow.process_human_approval "CASE_001" "OFFICER_123" "APPROVE"
          (Some "Reviewed documents") "t1" "t2" pending_workflow
        = (inr r, decided_workflow))
  ∧ length (Workflow.get_pending_approvals pending_workflow)
    = S (length (Workflow.get_pending_approvals decided_workflow)).
Proof.
  assert (Hwf : Workflow.process_human_approval "CASE_001" "OFFICER_123"
                  "APPROVE" (Some "Reviewed documents") "t1" "t2"
                  pending_workflow
                = (inr (Workflow.record_decision
                          (pending_request "CASE_001" "URGENT_REVIEW"
                             (755 # 10) "Your case needs review" "t0")
                          "OFFICER_123" "APPROVE" (Some "Reviewed documents")
                          "t1"),
                   decided_workflow)) by reflexivity.
  split; [eexists; exact Hwf|].
  exact (proj1 (process_success_leaves_pending _ _ _ _ _ _ _ _ _ Hwf)).
Defined.

Lemma history_after_create_witness :
  "CASE_001" ≠ ""
  ∧ Workflow.get_approval_history duplicated_workflow (Some "CASE_001")
    = [pending_request "CASE_001" "URGENT_REVIEW" (755 # 10) "first" "t0";
       pending_request "CASE_001" "ROUTINE_REVIEW" (10 # 1) "second" "t1"].
Proof.
  assert (Hne : "CASE_001" ≠ "") by discriminate.
  split; [exact Hne|].
  exact (proj1 (history_after_create
                  (snd (Workflow.create_approval_request "CASE_001"
                          "URGENT_REVIEW" (755 # 10) "first" "t0"
                          Workflow.__init__))
                  "CASE_001" "ROUTINE_REVIEW" (10 # 1) "second" "t1" Hne)).
Defined.

(** ** The label encoding of a batch *)

Section EncodingProperties.
Import Models.

Lemma compare_refl (a : string) : String.compare a a = Eq.
Proof.
  pose proof (String.compare_antisym a a) as H.
  destruct (String.compare a a); simpl in H; congruence.
Qed.

Lemma str_lt_irrefl (a : string) : ¬ str_lt a a.
Proof. unfold str_lt. by rewrite compare_refl. Qed.

Lemma str_lt_le (a b : string) : str_lt a b → String.le a b.
Proof. unfold str_lt, String.le, String.leb. by intros ->. Qed.

Lemma str_lt_asym (a b : string) : str_lt a b → ¬ str_lt b a.
Proof.
  unfold str_lt. intros Hab Hba.
  rewrite String.compare_antisym, Hab in Hba. discriminate.
Qed.

Lemma str_lt_trans (a b c : string) : str_lt a b → str_lt b c → str_lt a c.
Proof.
  intros Hab Hbc.
  assert (Hle : String.le a c).
  { etrans; by apply str_lt_le. }
  unfold String.le, String.leb, str_lt in *.
  destruct (String.compare a c) eqn:Hac; [|done|done].
  apply String.compare_eq_iff in Hac as ->.
  by destruct (str_lt_asym _ _ Hab).
Qed.

Lemma elem_of_insert_class (x v : string) (classes : list string) :
  x ∈ insert_class v classes ↔ x = v ∨ x ∈ classes.
Proof.
  induction classes as [|c rest IH]; simpl.
  - rewrite list_elem_of_singleton, elem_of_nil. tauto.
  - destruct (String.compare v c) eqn:Hc.
    + apply String.compare_eq_iff in Hc as ->.
      rewrite elem_of_cons. tauto.
    + rewrite !elem_of_cons. tauto.
    + rewrite !elem_of_cons, IH. tauto.
Qed.

Lemma elem_of_np_unique (x : string) (y : list string) :
  x ∈ np_unique y ↔ x ∈ y.
Proof.
  unfold np_unique. induction y as [|v y IH]; simpl; [done|].
  by rewrite elem_of_insert_class, elem_of_cons, IH.
Qed.

Lemma insert_class_sorted (v : string) (classes : list string) :
  StronglySorted str_lt classes → StronglySorted str_lt (insert_class v classes).
Proof.
  induction 1 as [|c rest Hrest IH Hc]; simpl.
  - by repeat constructor.
  - destruct (String.compare v c) eqn:Hvc.
    + by constructor.
    + constructor; [by constructor|].
      constructor; [done|].
      eapply Forall_impl; [done|]. intros z Hz. by eapply str_lt_trans.
    + constructor; [done|].
      apply Forall_forall. intros z Hz.
      apply elem_of_insert_class in Hz as [->|Hz].
      * unfold str_lt. by rewrite String.compare_antisym, Hvc.
      * by eapply Forall_forall in Hc.
Qed.

Lemma np_unique_sorted (y : list string) : StronglySorted str_lt (np_unique y).
Proof.
  unfold np_unique. induction y as [|v y IH]; simpl; [constructor|].
  by apply insert_class_sorted.
Qed.

(** Two strictly sorted lists with the same elements are the same list. *)
Lemma sorted_same_elements (l1 l2 : list string) :
  StronglySorted str_lt l1 → StronglySorted str_lt l2 →
  (∀ x, x ∈ l1 ↔ x ∈ l2) → l1 = l2.
Proof.
  intros H1. revert l2.
  induction H1 as [|a l1 Hs1 IH Ha]; intros l2 H2 Hsame.
  - destruct l2 as [|b l2]; [done|].
    destruct (not_elem_of_nil b). apply Hsame. by left.
  - destruct H2 as [|b l2 Hs2 Hb].
    { destruct (not_elem_of_nil a). apply Hsame. by left. }
    rewrite Forall_forall in Ha, Hb.
    assert (a = b) as <-.
    { assert (Hab : a ∈ b :: l2) by (apply Hsame; by left).
      assert (Hba : b ∈ a :: l1) by (apply Hsame; by left).
      apply elem_of_cons in Hab as [?|Hab]; [done|].
      apply elem_of_cons in Hba as [?|Hba]; [done|].
      destruct (str_lt_asym a b); auto. }
    f_equal. apply IH; [done|]. intros x. split; intros Hx.
    + assert (Hx2 : x ∈ a :: l2) by (apply Hsame; by right).
      apply elem_of_cons in Hx2 as [->|?]; [|done].
      destruct (str_lt_irrefl a). auto.
    + assert (Hx1 : x ∈ a :: l1) by (apply Hsame; by right).
      apply elem_of_cons in Hx1 as [->|?]; [|done].
      destruct (str_lt_irrefl a). auto.
Qed.

Lemma np_unique_same_set (y1 y2 : list string) :
  (∀ x, x ∈ y1 ↔ x ∈ y2) → np_unique y1 = np_unique y2.
Proof.
  intros Hsame. apply sorted_same_elements; auto using np_unique_sorted.
  intros x. by rewrite !elem_of_np_unique.
Qed.

Lemma class_index_lookup (classes : list string) (v : string) :
  v ∈ classes → classes !! class_index classes v = Some v.
Proof.
  intros Hin. unfold class_index.
  destruct (list_find (λ c, c = v) classes) as [[i c]|] eqn:Hfind; simpl.
  - by apply list_find_Some in Hfind as (Hi & -> & _).
  - apply list_find_None in Hfind. rewrite Forall_forall in Hfind.
    by destruct (Hfind v Hin).
Qed.

Lemma scheme_codes_lookup (df : list CitizenCase.t) (i : nat)
    (c : CitizenCase.t) :
  df !! i = Some c →
  scheme_codes df !! i
  = Some (class_index (scheme_classes df) (CitizenCase.scheme_type c)).
Proof.
  intros Hi. unfold scheme_codes, scheme_classes, fit_transform. simpl.
  by rewrite !list_lookup_fmap, Hi.
Qed.

(** X6. The encoding [prepare_features] makes can be read back within
    its own batch: it returns one row of four features per case, the
    refit encoder's classes are strictly sorted, and for every case the
    encoded scheme_type is a position in those classes at which the
    case's scheme stands; so two cases of a batch get the same code
    exactly when they have the same scheme. *)
Theorem prepare_features_codes_decode (self : WelfareRiskModel)
    (df : list CitizenCase.t) :
  fst (prepare_features df self)
  = inr (zip_with feature_row df (scheme_codes df))
  ∧ classes_ (label_encoder (snd (prepare_features df self)))
    = Some (scheme_classes df)
  ∧ length (scheme_codes df) = length df
  ∧ StronglySorted str_lt (scheme_classes df)
  ∧ (∀ i c, df !! i = Some c →
       ∃ code, scheme_codes df !! i = Some code
               ∧ scheme_classes df !! code = Some (CitizenCase.scheme_type c))
  ∧ (∀ i j ci cj codei codej,
       df !! i = Some ci → df !! j = Some cj →
       scheme_codes df !! i = Some codei → scheme_codes df !! j = Some codej →
       (codei = codej
        ↔ CitizenCase.scheme_type ci = CitizenCase.scheme_type cj)).
Proof.
  assert (Hdecode : ∀ i c, df !! i = Some c →
    scheme_classes df !! class_index (scheme_classes df)
                           (CitizenCase.scheme_type c)
    = Some (CitizenCase.scheme_type c)).
  { intros i c Hi. apply class_index_lookup, elem_of_np_unique.
    apply list_elem_of_fmap. exists c. split; [done|].
    by eapply list_elem_of_lookup_2. }
  split; [done|]. split; [done|]. split.
  { unfold scheme_codes, fit_transform. simpl. by rewrite !length_fmap. }
  split; [apply np_unique_sorted|]. split.
  - intros i c Hi. eexists. split; [by apply scheme_codes_lookup|]. eauto.
  - intros i j ci cj codei codej Hi Hj Hci Hcj.
    rewrite (scheme_codes_lookup df i ci Hi) in Hci.
    rewrite (scheme_codes_lookup df j cj Hj) in Hcj.
    injection Hci as <-. injection Hcj as <-. split.
    + intros Heq. pose proof (Hdecode i ci Hi) as H1.
      pose proof (Hdecode j cj Hj) as H2. rewrite Heq in H1. congruence.
    + by intros ->.
Qed.

(** X7. The code of a scheme depends on the batch only through the set
    of schemes that occur in it: two dataframes in which the same
    schemes occur get the same classes, and a scheme gets the same code
    in both, whatever the number and order of their rows; so
    [prepare_features], on whatever model objects, leaves the same
    label encoder after both and returns rows with the same encoded
    scheme_type for cases of the same scheme. *)
Theorem encoding_depends_on_scheme_set (df1 df2 : list CitizenCase.t) :
  (∀ s, s ∈ CitizenCase.scheme_type <$> df1
        ↔ s ∈ CitizenCase.scheme_type <$> df2) →
  scheme_classes df1 = scheme_classes df2
  ∧ (∀ i j c1 c2,
       df1 !! i = Some c1 → df2 !! j = Some c2 →
       CitizenCase.scheme_type c1 = CitizenCase.scheme_type c2 →
       scheme_codes df1 !! i = scheme_codes df2 !! j)
  ∧ (∀ self1 self2,
       label_encoder (snd (prepare_features df1 self1))
       = label_encoder (snd (prepare_features df2 self2))
       ∧ ∀ i j c1 c2,
           df1 !! i = Some c1 → df2 !! j = Some c2 →
           CitizenCase.scheme_type c1 = CitizenCase.scheme_type c2 →
           ∃ code X1 X2,
             fst (prepare_features df1 self1) = inr X1
             ∧ fst (prepare_features df2 self2) = inr X2
             ∧ X1 !! i = Some (feature_row c1 code)
             ∧ X2 !! j = Some (feature_row c2 code)).
Proof.
  intros Hsame.
  assert (Hclasses : scheme_classes df1 = scheme_classes df2).
  { by apply np_unique_same_set. }
  assert (Hcodes : ∀ i j c1 c2,
    df1 !! i = Some c1 → df2 !! j = Some c2 →
    CitizenCase.scheme_type c1 = CitizenCase.scheme_type c2 →
    scheme_codes df1 !! i = scheme_codes df2 !! j).
  { intros i j c1 c2 Hi Hj Heq.
    rewrite (scheme_codes_lookup df1 i c1 Hi),
      (scheme_codes_lookup df2 j c2 Hj).
    by rewrite Hclasses, Heq. }
  split; [done|]. split; [done|]. intros self1 self2. split.
  - change (label_encoder (snd (prepare_features df1 self1)))
      with {| classes_ := Some (scheme_classes df1) |}.
    change (label_encoder (snd (prepare_features df2 self2)))
      with {| classes_ := Some (scheme_classes df2) |}.
    by rewrite Hclasses.
  - intros i j c1 c2 Hi Hj Heq.
    exists (class_index (scheme_classes df1) (CitizenCase.scheme_type c1)),
      (zip_with feature_row df1 (scheme_codes df1)),
      (zip_with feature_row df2 (scheme_codes df2)).
    split; [done|]. split; [done|].
    pose proof (scheme_codes_lookup df1 i c1 Hi) as Hcode.
    split; apply lookup_zip_with_Some.
    + by exists c1, (class_index (scheme_classes df1)
                                 (CitizenCase.scheme_type c1)).
    + exists c2, (class_index (scheme_classes df1)
                              (CitizenCase.scheme_type c1)).
      by rewrite <- (Hcodes i j c1 c2 Hi Hj Heq).
Qed.

(** X8. A dataframe in which pension, ration and subsidy all occur, and
    no other scheme, is encoded alphabetically: the classes are pension,
    ration, subsidy and the codes 0, 1 and 2, the mapping a training set
    of the three schemes gets; [prepare_features] on it leaves an
    encoder with these classes and returns, for every case, the row
    with that code as encoded scheme_type. *)
Theorem full_batch_encoding (df : list CitizenCase.t) :
  (∀ s, s ∈ CitizenCase.scheme_type <$> df
        ↔ s ∈ ["pension"; "subsidy"; "ration"]) →
  scheme_classes df = ["pension"; "ration"; "subsidy"]
  ∧ (∀ i c, df !! i = Some c →
       scheme_codes df !! i
       = Some (if String.eqb (CitizenCase.scheme_type c) "pension" then 0%nat
               else if String.eqb (CitizenCase.scheme_type c) "ration"
                    then 1%nat else 2%nat))
  ∧ (∀ self,
       classes_ (label_encoder (snd (prepare_features df self)))
       = Some ["pension"; "ration"; "subsidy"]
       ∧ ∃ X, fst (prepare_features df self) = inr X
              ∧ ∀ i c, df !! i = Some c →
                  X !! i
                  = Some (feature_row c
                            (if String.eqb (CitizenCase.scheme_type c)
                                           "pension" then 0%nat
                             else if String.eqb (CitizenCase.scheme_type c)
                                                "ration"
                                  then 1%nat else 2%nat))).
Proof.
  intros Hsame.
  assert (Hclasses : scheme_classes df = ["pension"; "ration"; "subsidy"]).
  { unfold scheme_classes.
    by rewrite (np_unique_same_set _ ["pension"; "subsidy"; "ration"]). }
  assert (Hcodes : ∀ i c, df !! i = Some c →
    scheme_codes df !! i
    = Some (if String.eqb (CitizenCase.scheme_type c) "pension" then 0%nat
            else if String.eqb (CitizenCase.scheme_type c) "ration"
                 then 1%nat else 2%nat)).
  { intros i c Hi.
    rewrite (scheme_codes_lookup df i c Hi), Hclasses.
    assert (Hc : CitizenCase.scheme_type c
                 ∈ ["pension"; "subsidy"; "ration"]).
    { apply Hsame, list_elem_of_fmap. exists c. split; [done|].
      by eapply list_elem_of_lookup_2. }
    rewrite !elem_of_cons, elem_of_nil in Hc.
    by destruct Hc as [->|[->|[->|[]]]]. }
  split; [done|]. split; [done|]. intros self. split.
  - change (label_encoder (snd (prepare_features df self)))
      with {| classes_ := Some (scheme_classes df) |}.
    simpl. by rewrite Hclasses.
  - exists (zip_with feature_row df (scheme_codes df)). split; [done|].
    intros i c Hi. apply lookup_zip_with_Some.
    eexists c, _. split; [done|]. split; [done|]. exact (Hcodes i c Hi).
Qed.

End EncodingProperties.

Lemma encoding_depends_on_scheme_set_witness :
  (∀ s, s ∈ CitizenCase.scheme_type
            <$> [case_of_scheme "subsidy"; case_of_scheme "pension"]
        ↔ s ∈ CitizenCase.scheme_type
              <$> [case_of_scheme "pension"; case_of_scheme "pension";
                   case_of_scheme "subsidy"])
  ∧ scheme_classes [case_of_scheme "subsidy"; case_of_scheme "pension"]
    = scheme_classes [case_of_scheme "pension"; case_of_scheme "pension";
                      case_of_scheme "subsidy"].
Proof.
  assert (Hsame : ∀ s,
    s ∈ CitizenCase.scheme_type
        <$> [case_of_scheme "subsidy"; case_of_scheme "pension"]
    ↔ s ∈ CitizenCase.scheme_type
          <$> [case_of_scheme "pension"; case_of_scheme "pension";
               case_of_scheme "subsidy"]).
  { intros s. simpl. rewrite !elem_of_cons, !elem_of_nil. tauto. }
  split; [exact Hsame|].
  exact (proj1 (encoding_depends_on_scheme_set _ _ Hsame)).
Defined.

Lemma full_batch_encoding_witness :
  (∀ s, s ∈ CitizenCase.scheme_type
            <$> [case_of_scheme "subsidy"; case_of_scheme "ration";
                 case_of_scheme "pension"; case_of_scheme "ration"]
        ↔ s ∈ ["pension"; "subsidy"; "ration"])
  ∧ scheme_codes [case_of_scheme "subsidy"; case_of_scheme "ration";
                  case_of_scheme "pension"; case_of_scheme "ration"]
      !! 0%nat = Some 2%nat.
Proof.
  assert (Hsame : ∀ s,
    s ∈ CitizenCase.scheme_type
        <$> [case_of_scheme "subsidy"; case_of_scheme "ration";
             case_of_scheme "pension"; case_of_scheme "ration"]
    ↔ s ∈ ["pension"; "subsidy"; "ration"]).
  { intros s. simpl. rewrite !elem_of_cons, !elem_of_nil. tauto. }
  split; [exact Hsame|].
  exact (proj1 (proj2 (full_batch_encoding _ Hsame)) 0%nat
           (case_of_scheme "subsidy") eq_refl).
Defined.

(** ** Saving and loading the model (step2_ml_risk_model.py) *)

Section PersistenceProperties.
Import Models.

(** X9. What [save_model] writes, [load_model] reads back: when
    [save_model] succeeds on a model, loading the written file into any
    model object gives that model again (classifier, regressor, label
    encoder, feature names and the trained flag); [save_model] fails
    exactly on an untrained model, and [load_model] of a missing file
    raises and leaves the model object as it was. *)
Theorem save_load_round_trip (self other : WelfareRiskModel) :
  (∀ file, Step2.save_model self = inr file →
           Step2.load_model (Some file) other = (inr tt, self))
  ∧ ((∃ e, Step2.save_model self = inl e) ↔ is_trained self = false)
  ∧ (∃ e, Step2.load_model None other = (inl e, other)).
Proof.
  unfold Step2.save_model, Step2.load_model. run_unfold.
  destruct self as [clf reg enc names trained]. simpl.
  destruct trained; simpl.
  - split; [by intros file [= <-]|]. split; [|eauto].
    split; [by intros [e ?]|done].
  - split; [done|]. split; [|eauto]. split; [done|eauto].
Qed.

End PersistenceProperties.

(** ** The explanation engine: actions and configuration *)

Section EngineProperties.
Import Explanation.

(** X10. The action [generate_explanation] recommends is fixed by the
    risk level alone, whatever the engine, the score, the reasons and
    the citizen data: URGENT_REVIEW for "high", STANDARD_REVIEW for
    "medium", and ROUTINE_REVIEW for every other text (also for a level
    written in capitals or an empty one); score and level are returned
    as given. *)
Theorem recommended_action_by_level (self : ExplanationEngine)
    (risk_score : Q) (risk_level : string)
    (model_reasons : list (string * Models.reason))
    (citizen_data : CitizenCase.t) :
  let r := generate_explanation self risk_score risk_level model_reasons
             citizen_data in
  Explanation.risk_score r = risk_score
  ∧ Explanation.risk_level r = risk_level
  ∧ ((risk_level = "high" ∧ recommended_action r = "URGENT_REVIEW"
      ∧ action_description r
        = "Case requires immediate officer review and citizen contact")
     ∨ (risk_level = "medium" ∧ recommended_action r = "STANDARD_REVIEW"
        ∧ action_description r
          = "Case requires standard officer review and documentation update request")
     ∨ (risk_level ≠ "high" ∧ risk_level ≠ "medium"
        ∧ recommended_action r = "ROUTINE_REVIEW"
        ∧ action_description r
          = "Case can proceed with routine officer verification")).
Proof.
  intros r. subst r. unfold generate_explanation.
  destruct (String.eqb_spec risk_level "high") as [->|Hh]; simpl.
  { split; [done|]. split; [done|]. by left. }
  destruct (String.eqb_spec risk_level "medium") as [->|Hm]; simpl.
  { split; [done|]. split; [done|]. right; by left. }
  split; [done|]. split; [done|]. right; right. done.
Qed.

Lemma truthy_Some (s : string) : truthy (Some s) = true ↔ s ≠ "".
Proof.
  simpl. destruct (String.eqb_spec s ""); simpl; split; congruence.
Qed.

(** X11. The engine [__init__] builds talks to the service only in a
    configured environment: there it holds the very client the
    constructor returned for the key and endpoint of the environment,
    and the deployment name of the environment, "gpt-4" when none is
    set; in every other environment (SDK missing, endpoint or
    key missing or empty, constructor raising, or the deployment name
    set to the empty text) every explanation it generates is the
    fallback message. *)
Theorem init_configuration (env : Environment) :
  (configured env →
   ∃ endpoint api_key c,
     AZURE_OPENAI_ENDPOINT env = Some endpoint
     ∧ AZURE_OPENAI_API_KEY env = Some api_key
     ∧ new_AzureOpenAI env api_key "2024-02-15-preview" endpoint = inr c
     ∧ client (__init__ env) = Some c
     ∧ deployment_name (__init__ env)
       = Some (default "gpt-4" (AZURE_OPENAI_DEPLOYMENT_NAME env))
     ∧ truthy (deployment_name (__init__ env)) = true)
  ∧ (¬ configured env →
     ∀ risk_score risk_level model_reasons citizen_data,
       explanation (generate_explanation (__init__ env) risk_score
                      risk_level model_reasons citizen_data)
       = _generate_mock_explanation risk_score risk_level).
Proof.
  split.
  - intros (Hav & Hdep & endpoint & api_key & c & He & Hne & Hk & Hnk & Hc).
    exists endpoint, api_key, c. do 3 (split; [done|]).
    unfold __init__. rewrite Hav, He, Hk.
    destruct (String.eqb_spec endpoint ""); [done|].
    destruct (String.eqb_spec api_key ""); [done|]. simpl. rewrite Hc. simpl.
    split; [done|]. split; [done|].
    destruct (AZURE_OPENAI_DEPLOYMENT_NAME env) as [d|]; simpl; [|done].
    destruct (String.eqb_spec d ""); [congruence|done].
  - intros Hnot risk_score risk_level model_reasons citizen_data.
    apply generate_explanation_uses_mock.
    destruct (client (__init__ env)) as [c|] eqn:Hclient;
      [|by apply no_client].
    apply no_deployment_name.
    destruct (truthy (deployment_name (__init__ env))) eqn:Htruthy; [|done].
    exfalso. apply Hnot. unfold __init__ in Hclient, Htruthy.
    unfold configured.
    destruct (AZURE_OPENAI_AVAILABLE env); [|done].
    destruct (AZURE_OPENAI_ENDPOINT env) as [endpoint|]; [|done].
    destruct (AZURE_OPENAI_API_KEY env) as [api_key|]; [|done].
    destruct (String.eqb_spec endpoint ""); [done|].
    destruct (String.eqb_spec api_key ""); [done|]. simpl in *.
    destruct (new_AzureOpenAI env api_key "2024-02-15-preview" endpoint)
      as [|c'] eqn:Hnew; [done|]. simpl in *.
    split; [done|]. split; [|by eauto 10].
    intros Hd. rewrite Hd in Htruthy. done.
Qed.

End EngineProperties.

Lemma save_load_round_trip_witness :
  (∃ file, Step2.save_model loaded_toy_model = inr file
           ∧ Step2.load_model (Some file) Models.__init__
             = (inr tt, loaded_toy_model))
  ∧ (∃ e, Step2.save_model Models.__init__ = inl e).
Proof.
  split.
  - eexists. split; [reflexivity|].
    apply (proj1 (save_load_round_trip loaded_toy_model Models.__init__)).
    reflexivity.
  - apply (proj1 (proj2 (save_load_round_trip Models.__init__
                           Models.__init__))).
    reflexivity.
Defined.

Lemma init_configuration_witness :
  configured env_working
  ∧ ¬ configured env_empty_deployment
  ∧ Explanation.explanation
      (Explanation.generate_explanation
         (Explanation.__init__ env_empty_deployment) (45 # 1) "medium" []
         sample_case)
    = Explanation._generate_mock_explanation (45 # 1) "medium"
  ∧ Explanation.explanation
      (Explanation.generate_explanation
         (Explanation.__init__ env_working) (45 # 1) "medium" [] sample_case)
    = "Hello".
Proof.
  assert (Hok : configured env_working).
  { split; [done|]. split; [done|]. by eauto 10. }
  assert (Hbad : ¬ configured env_empty_deployment).
  { intros (_ & Hd & _). by apply Hd. }
  split; [exact Hok|]. split; [exact Hbad|]. split.
  - exact (proj2 (init_configuration env_empty_deployment) Hbad (45 # 1)
             "medium" [] sample_case).
  - destruct (proj1 (init_configuration env_working) Hok)
      as (endpoint & api_key & c & _).
    reflexivity.
Defined.

(** ** The service: errors, append-only stores, look-up, counts *)

Section ServiceProperties.
Import App.

(** X12. A POST /approve_case that fails changes nothing, neither a case
    nor the approvals: it is answered 422 when the decision is not
    APPROVE or REJECT, 404 "Case not found" when no stored case has the
    case_id, and 400 naming the current status when the first case with
    that case_id is not pending. *)
Theorem approve_case_error_unchanged (s s1 : State)
    (body : ApprovalRequest.t) (now_case now_record : string)
    (e : HTTPError) :
  POST_approve_case body now_case now_record s = (inl e, s1) →
  s1 = s
  ∧ match e with
    | RequestValidationError => valid_ApprovalRequest body = false
    | HTTPException code detail =>
      valid_ApprovalRequest body = true
      ∧ ((code = 404%Z ∧ detail = "Case not found"
          ∧ Forall (λ c, case_id c ≠ ApprovalRequest.case_id body)
                   (cases_db s))
         ∨ (code = 400%Z
            ∧ ∃ i c, list_find (λ c, case_id c = ApprovalRequest.case_id body)
                       (cases_db s) = Some (i, c)
                     ∧ status c ≠ "PENDING_APPROVAL"
                     ∧ detail = "Case already processed. Current status: "
                                ++ status c))
    end.
Proof.
  unfold POST_approve_case.
  destruct (valid_ApprovalRequest body); [|by intros [= <- <-]].
  rewrite approve_case_eq.
  destruct (list_find _ _) as [[i c]|] eqn:Hfind.
  - destruct (String.eqb_spec (status c) "PENDING_APPROVAL");
      [discriminate|].
    intros [= <- <-]. split; [done|]. split; [done|]. right. eauto 10.
  - intros [= <- <-]. split; [done|]. split; [done|]. left.
    split; [done|]. split; [done|]. by apply (list_find_None _ _).
Qed.

Lemma same_analysis_refl (c : Case) : same_analysis c c.
Proof. by repeat split. Qed.

Lemma same_analysis_trans (c d e : Case) :
  same_analysis c d → same_analysis d e → same_analysis c e.
Proof. unfold same_analysis. intuition congruence. Qed.

Lemma serve_appends (s : State) (r : request) :
  approvals_db s `prefix_of` approvals_db (serve s r)
  ∧ ∀ j c, cases_db s !! j = Some c →
           ∃ d, cases_db (serve s r) !! j = Some d ∧ same_analysis c d.
Proof.
  destruct r as [body now_id now_ts|body now_case now_record]; simpl.
  - unfold POST_analyze_case.
    destruct (valid_CitizenCase body);
      [|split; [done|]; eauto using same_analysis_refl].
    destruct (analyze_case_effect body now_id now_ts s) as [Happ Hcases].
    destruct (analyze_case body now_id now_ts s) as [r s']. simpl in *.
    rewrite Happ. split; [done|]. intros j c Hj. exists c.
    split; [|apply same_analysis_refl].
    destruct Hcases as [(e & _ & ->)|(d & _ & -> & _)]; [done|].
    by apply lookup_app_l_Some.
  - unfold POST_approve_case.
    destruct (valid_ApprovalRequest body);
      [|split; [done|]; eauto using same_analysis_refl].
    rewrite approve_case_eq.
    destruct (list_find _ _) as [[i c]|] eqn:Hfind;
      [|split; [done|]; eauto using same_analysis_refl].
    destruct (String.eqb (status c) "PENDING_APPROVAL");
      [|split; [done|]; eauto using same_analysis_refl].
    simpl. split; [by apply prefix_app_r|]. intros j d Hj.
    apply list_find_Some in Hfind as (Hi & _ & _).
    destruct (decide (j = i)) as [->|Hne].
    + rewrite list_lookup_insert_eq by (by eapply lookup_lt_Some).
      eexists. split; [done|]. simplify_eq. by repeat split.
    + rewrite list_lookup_insert_ne by done.
      eauto using same_analysis_refl.
Qed.

(** X13. Both stores only grow, over any sequence of POST /analyze_case
    and POST /approve_case requests from any state: the approval records
    present before are a prefix of those present after, and every case
    is still at its position with the same case_id, citizen, risk score
    and level, explanation, recommended action, model reasons and
    timestamp; only the approval fields of a case ever change. *)
Theorem requests_only_append (s : State) (requests : list request) :
  approvals_db s `prefix_of` approvals_db (foldl serve s requests)
  ∧ ∀ j c, cases_db s !! j = Some c →
           ∃ d, cases_db (foldl serve s requests) !! j = Some d
                ∧ same_analysis c d.
Proof.
  revert s. induction requests as [|r requests IH]; intros s; simpl.
  { split; [done|]. eauto using same_analysis_refl. }
  destruct (serve_appends s r) as [Hp Hc].
  destruct (IH (serve s r)) as [Hp' Hc']. split; [by etrans|].
  intros j c Hj. destruct (Hc j c Hj) as (d & Hd & Hcd).
  destruct (Hc' j d Hd) as (e & He & Hde).
  eauto using same_analysis_trans.
Qed.

(** X14. In every state reached from start-up the case identifiers are
    pairwise different, so GET /cases/{case_id} returns, for every
    stored case, that very case, and answers 404 "Case not found" for
    every case_id that no stored case has. *)
Theorem reachable_get_case (s : State) :
  reachable s →
  NoDup (case_id <$> cases_db s)
  ∧ (∀ c, c ∈ cases_db s → get_case (case_id c) s = inr c)
  ∧ (∀ id, id ∉ case_id <$> cases_db s →
           get_case id s = inl (HTTPException 404 "Case not found")).
Proof.
  intros Hreach. apply consistent_reachable in Hreach as Hs.
  split; [|split].
  - apply NoDup_alt. intros i j id Hi Hj.
    rewrite list_lookup_fmap in Hi, Hj.
    destruct (cases_db s !! i) as [c|] eqn:Hc; [|done].
    destruct (cases_db s !! j) as [d|] eqn:Hd; [|done].
    simpl in *. apply (consistent_unique_ids s i j c d); congruence.
  - intros c Hc. apply list_elem_of_lookup in Hc as [j Hj].
    unfold get_case.
    assert (Hfind : list_find (λ d, case_id d = case_id c) (cases_db s)
                    = Some (j, c)).
    { apply list_find_Some. split; [done|]. split; [done|].
      intros i d Hi Hlt Heq.
      assert (i = j) by (by apply (consistent_unique_ids s i j d c)). lia. }
    by rewrite Hfind.
  - intros id Hid. unfold get_case.
    assert (Hfind : list_find (λ d, case_id d = id) (cases_db s) = None).
    { apply list_find_None, Forall_forall. intros d Hd Heq. apply Hid.
      apply list_elem_of_fmap. eauto. }
    by rewrite Hfind.
Qed.

Lemma decided_count_serve (s : State) (r : request) :
  length (approvals_db s)
  = length (filter (λ c, status c ≠ "PENDING_APPROVAL") (cases_db s)) →
  length (approvals_db (serve s r))
  = length (filter (λ c, status c ≠ "PENDING_APPROVAL")
              (cases_db (serve s r))).
Proof.
  intros Hcount.
  destruct r as [body now_id now_ts|body now_case now_record]; simpl.
  - unfold POST_analyze_case. destruct (valid_CitizenCase body); [|done].
    destruct (analyze_case_effect body now_id now_ts s) as [Happ Hcases].
    destruct (analyze_case body now_id now_ts s) as [r s']. simpl in *.
    rewrite Happ.
    destruct Hcases as [(e & _ & ->)|(d & _ & -> & _ & Hst & _)]; [done|].
    rewrite filter_app, length_app, filter_cons, decide_False by auto.
    simpl. lia.
  - unfold POST_approve_case.
    destruct (valid_ApprovalRequest body) eqn:Hvalid; [|done].
    rewrite approve_case_eq.
    destruct (list_find _ _) as [[i c]|] eqn:Hfind; [|done].
    destruct (String.eqb_spec (status c) "PENDING_APPROVAL") as [Hp|];
      [|done].
    simpl. apply list_find_Some in Hfind as (Hi & _ & _).
    rewrite length_app. simpl.
    rewrite (filter_insert_gain _ _ i c); [lia|done|auto|].
    simpl. intros Heq. apply decision_not_pending in Hvalid.
    rewrite Heq in Hvalid. discriminate.
Qed.

(** X15. In every state reached from start-up the two counters of
    GET /health fit together: approvals_count is the number of stored
    cases that are no longer pending, so it never exceeds cases_count,
    and the pending cases make up the difference. *)
Theorem health_counts (s : State) :
  reachable s →
  approvals_count (health_check s)
  = length (filter (λ c, status c ≠ "PENDING_APPROVAL") (cases_db s))
  ∧ (approvals_count (health_check s) ≤ cases_count (health_check s))%nat
  ∧ (length (get_cases (Some "PENDING_APPROVAL") None s)
     + approvals_count (health_check s))%nat
    = cases_count (health_check s).
Proof.
  intros (rm & ee & requests & ->). simpl.
  assert (Hcount : ∀ s0,
    length (approvals_db s0)
    = length (filter (λ c, status c ≠ "PENDING_APPROVAL") (cases_db s0)) →
    length (approvals_db (foldl serve s0 requests))
    = length (filter (λ c, status c ≠ "PENDING_APPROVAL")
                (cases_db (foldl serve s0 requests)))).
  { induction requests as [|r requests IH]; intros s0 H0; simpl; [done|].
    apply IH. by apply decided_count_serve. }
  specialize (Hcount (startup rm ee) eq_refl).
  set (s := foldl serve (startup rm ee) requests) in *.
  split; [done|]. rewrite Hcount. split; [apply length_filter|].
  unfold get_cases. simpl.
  pose proof (filter_app_complement
                (λ c, Some (status c) = Some "PENDING_APPROVAL")
                (cases_db s)) as Hperm.
  apply Permutation_length in Hperm. rewrite length_app in Hperm.
  rewrite <- Hperm. f_equal. f_equal.
  apply list_filter_iff. intros c. split; intros H; congruence.
Qed.

(** X16. In every state reached from start-up the officers' queue,
    GET /cases?status=PENDING_APPROVAL, lists exactly the stored cases
    that have no approval record under their case_id. *)
Theorem pending_queue_has_no_records (s : State) :
  reachable s →
  ∀ c, c ∈ GET_cases pending_query s
       ↔ c ∈ cases_db s ∧ approvals_for (case_id c) (approvals_db s) = [].
Proof.
  intros Hreach c. apply consistent_reachable in Hreach as [Hcases _].
  unfold GET_cases, get_cases, pending_query. simpl.
  rewrite list_elem_of_filter. split.
  - intros [[= Hst] Hin]. split; [done|].
    apply list_elem_of_lookup in Hin as [j Hj].
    destruct (Hcases j c Hj) as [_ [[_ ?]|[[H|H] _]]]; [done|..];
      rewrite Hst in H; discriminate.
  - intros [Hin Hnone]. split; [|done].
    apply list_elem_of_lookup in Hin as [j Hj].
    destruct (Hcases j c Hj) as [_ [[-> _]|[_ (a & Ha & _)]]]; [done|].
    rewrite Hnone in Ha. discriminate.
Qed.

End ServiceProperties.

Lemma approve_case_error_unchanged_witness :
  App.POST_approve_case approve_unknown "t1" "t2" approved_state
  = (inl (App.HTTPException 404 "Case not found"), approved_state)
  ∧ approved_state = approved_state.
Proof.
  split; [reflexivity|].
  exact (proj1 (approve_case_error_unchanged approved_state approved_state
                  approve_unknown "t1" "t2"
                  (App.HTTPException 404 "Case not found") eq_refl)).
Defined.

Lemma reachable_get_case_witness :
  App.reachable demo_state
  ∧ NoDup (App.case_id <$> App.cases_db demo_state)
  ∧ App.get_case "CASE_0_7" demo_state
    = inl (App.HTTPException 404 "Case not found").
Proof.
  assert (Hreach : App.reachable demo_state).
  { exists (Some toy_model), (Some failing_engine), demo_requests.
    reflexivity. }
  split; [exact Hreach|].
  destruct (reachable_get_case demo_state Hreach) as (Hnodup & _ & Hmiss).
  split; [exact Hnodup|]. apply Hmiss.
  simpl. rewrite !elem_of_cons, elem_of_nil.
  intros [?|[?|[]]]; discriminate.
Defined.

Lemma health_counts_witness :
  App.reachable demo_state
  ∧ App.approvals_count (App.health_check demo_state) = 1%nat
  ∧ App.cases_count (App.health_check demo_state) = 2%nat.
Proof.
  assert (Hreach : App.reachable demo_state).
  { exists (Some toy_model), (Some failing_engine), demo_requests.
    reflexivity. }
  split; [exact Hreach|].
  destruct (health_counts demo_state Hreach) as (Hcount & _ & _).
  split; [rewrite Hcount|]; reflexivity.
Defined.

Lemma pending_queue_has_no_records_witness :
  App.reachable demo_state
  ∧ App.case_id <$> App.GET_cases pending_query demo_state
    = ["CASE_20260101120000_1"]
  ∧ ∀ c, c ∈ App.GET_cases pending_query demo_state →
         approvals_for (App.case_id c) (App.approvals_db demo_state) = [].
Proof.
  assert (Hreach : App.reachable demo_state).
  { exists (Some toy_model), (Some failing_engine), demo_requests.
    reflexivity. }
  split; [exact Hreach|]. split; [reflexivity|].
  intros c Hc.
  exact (proj2 (proj1 (pending_queue_has_no_records demo_state Hreach c) Hc)).
Defined.

(** ** The service: what an analysis stores *)

Section AnalysisProperties.
Import App.

Lemma action_cases (ee : Explanation.ExplanationEngine) (score : Q)
    (level : string) (reasons : list (string * Models.reason))
    (data : CitizenCase.t) :
  let r := Explanation.generate_explanation ee score level reasons data in
  (level = "high" ∧ Explanation.recommended_action r = "URGENT_REVIEW")
  ∨ (level = "medium" ∧ Explanation.recommended_action r = "STANDARD_REVIEW")
  ∨ (level ≠ "high" ∧ level ≠ "medium"
     ∧ Explanation.recommended_action r = "ROUTINE_REVIEW").
Proof.
  intros r. subst r. unfold Explanation.generate_explanation.
  destruct (String.eqb_spec level "high") as [->|Hh]; simpl; [by left|].
  destruct (String.eqb_spec level "medium") as [->|Hm]; simpl;
    [right; by left|].
  right; right. done.
Qed.

Lemma analyze_case_stores_ok (body : CitizenCase.t) (now_id now_ts : string)
    (s : State) (c : Case) :
  fst (analyze_case body now_id now_ts s) = inr c → case_fields_ok c.
Proof.
  unfold analyze_case. run_unfold. cbv zeta.
  destruct (risk_model s) as [rm|]; [|done].
  destruct (explanation_engine s) as [ee|]; [|done].
  destruct (Models.prepare_features [body] rm) as [[e|X] rm'] eqn:Hprep;
    simpl; [done|].
  destruct (Models.predict_risk rm' X) as [e|[[levels scores] imp]] eqn:Hpred;
    simpl; [done|].
  destruct levels as [|level levels]; simpl; [done|].
  destruct scores as [|score scores]; simpl; [done|].
  destruct (Models.get_model_reasons rm' X _) as [e|reasons]; simpl; [done|].
  intros [= <-]. unfold case_fields_ok. simpl.
  split; [|split; [apply action_cases|left; done]].
  unfold Models.predict_risk in Hpred.
  repeat case_match; try discriminate.
  injection Hpred as _ Hscores _.
  assert (Hall : Forall (λ x, (0 <= x <= 100)%Q) (score :: scores)).
  { rewrite <- Hscores. apply np_clip_0_100. }
  by apply Forall_cons in Hall as [? _].
Qed.

Lemma case_fields_ok_serve (s : State) (r : request) :
  Forall case_fields_ok (cases_db s) →
  Forall case_fields_ok (cases_db (serve s r)).
Proof.
  intros Hok.
  destruct r as [body now_id now_ts|body now_case now_record]; simpl.
  - unfold POST_analyze_case. destruct (valid_CitizenCase body); [|done].
    destruct (analyze_case_effect body now_id now_ts s) as [_ Hcases].
    pose proof (analyze_case_stores_ok body now_id now_ts s) as Hstored.
    destruct (analyze_case body now_id now_ts s) as [r s']. simpl in *.
    destruct Hcases as [(e & _ & ->)|(d & -> & -> & _)]; [done|].
    apply Forall_app. split; [done|]. apply Forall_cons. split; [|done].
    by apply Hstored.
  - unfold POST_approve_case.
    destruct (valid_ApprovalRequest body) eqn:Hvalid; [|done].
    rewrite approve_case_eq.
    destruct (list_find _ _) as [[i c]|] eqn:Hfind; [|done].
    destruct (String.eqb (status c) "PENDING_APPROVAL"); [|done].
    simpl. apply Forall_insert; [done|].
    apply list_find_Some in Hfind as (Hi & _ & _).
    rewrite Forall_forall in Hok.
    destruct (Hok c (list_elem_of_lookup_2 _ _ _ Hi)) as (Hscore & Hact & _).
    split; [done|]. split; [done|]. right.
    split; [by apply valid_decision|]. simpl. eauto.
Qed.

(** X17. In every state reached from start-up every stored case has a
    risk score between 0 and 100, the recommended action that belongs
    to its risk level (URGENT_REVIEW for high, STANDARD_REVIEW for
    medium, ROUTINE_REVIEW otherwise), and approval fields that fit its
    status: a pending case has no officer, notes or approval time, a
    case with status APPROVE or REJECT has all three. *)
Theorem reachable_case_fields (s : State) :
  reachable s → Forall case_fields_ok (cases_db s).
Proof.
  intros (rm & ee & requests & ->).
  assert (H0 : Forall case_fields_ok (cases_db (startup rm ee)))
    by constructor.
  revert H0. generalize (startup rm ee).
  induction requests as [|r requests IH]; intros s0 Hs0; simpl; [done|].
  apply IH. by apply case_fields_ok_serve.
Qed.

Lemma prepare_features_one (rm : Models.WelfareRiskModel)
    (body : CitizenCase.t) :
  Models.prepare_features [body] rm
  = (inr [Models.feature_row body 0], refit_on rm body).
Proof.
  unfold Models.prepare_features, Models.fit_transform, refit_on.
  run_unfold. simpl. by rewrite class_index_singleton.
Qed.

Lemma predict_risk_refit (rm : Models.WelfareRiskModel)
    (body : CitizenCase.t) (X : Models.ndarray) :
  Models.predict_risk (refit_on rm body) X = Models.predict_risk rm X.
Proof. reflexivity. Qed.

Lemma get_model_reasons_refit (rm : Models.WelfareRiskModel)
    (body : CitizenCase.t) (X : Models.ndarray) :
  Models.get_model_reasons (refit_on rm body) X
    (Models.feature_names (refit_on rm body))
  = Models.get_model_reasons rm X (Some Models.features).
Proof. reflexivity. Qed.

Lemma action_independent (ee : Explanation.ExplanationEngine) (score : Q)
    (level : string) (reasons : list (string * Models.reason))
    (d1 d2 : CitizenCase.t) :
  Explanation.recommended_action
    (Explanation.generate_explanation ee score level reasons d1)
  = Explanation.recommended_action
      (Explanation.generate_explanation ee score level reasons d2)
  ∧ Explanation.action_description
      (Explanation.generate_explanation ee score level reasons d1)
    = Explanation.action_description
        (Explanation.generate_explanation ee score level reasons d2).
Proof.
  unfold Explanation.generate_explanation.
  by destruct (String.eqb level "high"), (String.eqb level "medium").
Qed.

(** X18. The scheme type of a request has no influence on what is
    predicted for it: from the same state, two requests that differ
    only in scheme_type get the same answer apart from the explanation
    text, that is the same case_id, risk score, risk level, recommended
    action, model reasons (with scheme_type_encoded worth 0), timestamp
    and status, or the same error. *)
Theorem scheme_type_does_not_matter (s : State) (body : CitizenCase.t)
    (scheme : string) (now_id now_ts : string) :
  analysis_view (fst (analyze_case (with_scheme body scheme) now_id now_ts s))
  = analysis_view (fst (analyze_case body now_id now_ts s)).
Proof.
  unfold analyze_case. run_unfold. cbv zeta.
  destruct (risk_model s) as [rm|]; [|done].
  destruct (explanation_engine s) as [ee|]; [|done].
  rewrite !prepare_features_one.
  change (default rm (risk_model (set_risk_model
            (refit_on rm (with_scheme body scheme)) s)))
    with (refit_on rm (with_scheme body scheme)).
  change (default rm (risk_model (set_risk_model (refit_on rm body) s)))
    with (refit_on rm body).
  rewrite !get_model_reasons_refit, !predict_risk_refit.
  change (Models.feature_row (with_scheme body scheme) 0)
    with (Models.feature_row body 0).
  destruct (Models.predict_risk rm [Models.feature_row body 0])
    as [e|[[levels scores] imp]]; [done|].
  destruct levels as [|level levels]; [done|].
  destruct scores as [|score scores]; [done|].
  cbn [item0].
  destruct (Models.get_model_reasons rm [Models.feature_row body 0]
              (Some Models.features)) as [e|reasons]; [done|].
  cbn [fst analysis_view case_id citizen_id risk_score risk_level
       recommended_action action_description model_reasons timestamp status
       cases_db set_risk_model].
  destruct (action_independent ee score level reasons
              (with_scheme body scheme) body) as [-> ->].
  reflexivity.
Qed.

End AnalysisProperties.

Section UntrainedProperties.
Import App.


End UntrainedProperties.

Lemma reachable_case_fields_witness :
  App.reachable demo_state ∧ Forall case_fields_ok (App.cases_db demo_state).
Proof.
  assert (Hreach : App.reachable demo_state).
  { exists (Some toy_model), (Some failing_engine), demo_requests.
    reflexivity. }
  split; [exact Hreach|].
  exact (reachable_case_fields demo_state Hreach).
Defined.


(** ** Listing cases in backend/main.py *)

Section ListingProperties.
Import App.

Lemma ltb_false_le (a b : string) : String.ltb a b = false ↔ String.le b a.
Proof.
  unfold String.ltb, String.le, String.leb.
  rewrite (String.compare_antisym b a).
  destruct (String.compare a b); simpl; split; done.
Qed.

Lemma not_older_trans (a b c : Case) :
  not_older a b → not_older b c → not_older a c.
Proof.
  unfold not_older. rewrite !ltb_false_le. intros Hab Hbc. by etrans.
Qed.

Lemma elem_of_insert_newest (x c : Case) (cases : list Case) :
  x ∈ Main.insert_newest c cases ↔ x = c ∨ x ∈ cases.
Proof. by rewrite insert_newest_perm, elem_of_cons. Qed.

Lemma insert_newest_sorted (c : Case) (cases : list Case) :
  StronglySorted not_older cases →
  StronglySorted not_older (Main.insert_newest c cases).
Proof.
  induction 1 as [|d rest Hrest IH Hd]; simpl.
  - by repeat constructor.
  - destruct (String.ltb (timestamp c) (timestamp d)) eqn:Hcd.
    + constructor; [done|]. apply Forall_forall. intros x Hx.
      apply elem_of_insert_newest in Hx as [->|Hx].
      * unfold not_older, String.ltb in *.
        rewrite String.compare_antisym.
        by destruct (String.compare (timestamp c) (timestamp d)).
      * by eapply Forall_forall in Hd.
    + constructor; [by constructor|].
      constructor; [done|].
      eapply Forall_impl; [done|]. intros x Hx. by eapply not_older_trans.
Qed.

Lemma sorted_newest_first_sorted (cases : list Case) :
  StronglySorted not_older (Main.sorted_newest_first cases).
Proof.
  unfold Main.sorted_newest_first.
  induction cases as [|c cases IH]; simpl; [constructor|].
  by apply insert_newest_sorted.
Qed.

Lemma take_sorted {A} (R : A → A → Prop) (l : list A) (k : nat) :
  StronglySorted R l → StronglySorted R (take k l).
Proof.
  intros Hl. rewrite <- (take_drop k l) in Hl.
  by apply StronglySorted_app_1_l in Hl.
Qed.

Lemma main_get_cases_take (q : CasesQuery) (cases : list Case) :
  ∃ k, Main.GET_cases q cases
       = take k (Main.sorted_newest_first (filter (case_matches q) cases)).
Proof.
  unfold Main.GET_cases, Main.get_cases, Main.slice_to, case_matches.
  rewrite get_cases_filter. destruct (0 <=? _)%Z; eauto.
Qed.

(** X20. GET /cases of backend/main.py, whatever the filters and the
    limit: the response is ordered by timestamp, newest first; every
    case in it is a stored case that matches the filters; and when the
    query gives no limit it holds at most 100 cases. *)
Theorem main_get_cases_newest_first (q : CasesQuery) (cases : list Case) :
  StronglySorted not_older (Main.GET_cases q cases)
  ∧ (∀ c, c ∈ Main.GET_cases q cases → c ∈ cases ∧ case_matches q c)
  ∧ (q_limit q = None → (length (Main.GET_cases q cases) ≤ 100)%nat).
Proof.
  destruct (main_get_cases_take q cases) as [k Hk]. split; [|split].
  - rewrite Hk. apply take_sorted, sorted_newest_first_sorted.
  - intros c Hc. rewrite Hk in Hc.
    apply elem_of_take in Hc as (i & Hc & _).
    apply list_elem_of_lookup_2 in Hc.
    rewrite sorted_newest_first_perm in Hc.
    apply list_elem_of_filter in Hc. tauto.
  - intros Hnone.
    unfold Main.GET_cases, Main.get_cases, Main.slice_to.
    rewrite Hnone. simpl. rewrite length_take. lia.
Qed.

(** X21. A negative limit is taken as a slice bound counted from the
    end: GET /cases?limit=-k of backend/main.py answers with the
    matching cases, newest first, without the last k of them (the k
    oldest), and with none when there are k or fewer. *)
Theorem main_get_cases_negative_limit (q : CasesQuery) (cases : list Case)
    (n : Z) :
  q_limit q = Some n → (n < 0)%Z →
  Main.GET_cases q cases
  = take (length (filter (case_matches q) cases) - Z.to_nat (- n))
         (Main.sorted_newest_first (filter (case_matches q) cases))
  ∧ length (Main.GET_cases q cases)
    = (length (filter (case_matches q) cases) - Z.to_nat (- n))%nat.
Proof.
  intros Hq Hn.
  assert (Heq : Main.GET_cases q cases
    = take (length (filter (case_matches q) cases) - Z.to_nat (- n))
           (Main.sorted_newest_first (filter (case_matches q) cases))).
  { unfold Main.GET_cases, Main.get_cases, Main.slice_to, case_matches.
    rewrite Hq. simpl. rewrite get_cases_filter.
    destruct (Z.leb_spec 0 n); [lia|].
    by rewrite (Permutation_length (sorted_newest_first_perm _)). }
  split; [done|]. rewrite Heq, length_take.
  rewrite (Permutation_length (sorted_newest_first_perm _)). lia.
Qed.

End ListingProperties.

Lemma main_get_cases_newest_first_witness :
  App.case_id <$> Main.GET_cases
                    {| App.q_status := Some "PENDING_APPROVAL";
                       App.q_risk_level := Some "high";
                       App.q_limit := None |} three_cases
  = ["CASE_3_2"; "CASE_1_0"]
  ∧ StronglySorted not_older
      (Main.GET_cases {| App.q_status := Some "PENDING_APPROVAL";
                         App.q_risk_level := Some "high";
                         App.q_limit := None |} three_cases).
Proof.
  split; [reflexivity|].
  exact (proj1 (main_get_cases_newest_first _ three_cases)).
Defined.

Lemma main_get_cases_negative_limit_witness :
  App.q_limit last_but_one = Some (-1)%Z ∧ (-1 < 0)%Z
  ∧ App.case_id <$> Main.GET_cases last_but_one three_cases
    = ["CASE_2_1"; "CASE_3_2"]
  ∧ length (Main.GET_cases last_but_one three_cases)
    = (length (filter (case_matches last_but_one) three_cases)
       - Z.to_nat (- -1))%nat.
Proof.
  split; [reflexivity|]. split; [lia|]. split; [reflexivity|].
  apply (main_get_cases_negative_limit last_but_one three_cases (-1));
    [reflexivity|lia].
Defined.

(** ** The synthetic dataset (step1_generate_dataset.py) *)

Section DatasetProperties.
Import Step1.

Lemma round_half_even_ge (x : Q) (k : Z) :
  (inject_Z k <= x)%Q → (k ≤ round_half_even x)%Z.
Proof.
  destruct x as [n d]. unfold Qle, round_half_even. simpl. intros Hk.
  assert (Hf : (k ≤ n `div` Z.pos d)%Z).
  { apply Z.div_le_lower_bound; lia. }
  repeat case_match; lia.
Qed.

Lemma round_half_even_le (x : Q) (k : Z) :
  (x <= inject_Z k)%Q → (round_half_even x ≤ k)%Z.
Proof.
  destruct x as [n d]. unfold Qle, round_half_even. simpl. intros Hk.
  pose proof (Z.div_mod n (Z.pos d)) as Hdm.
  pose proof (Z.mod_pos_bound n (Z.pos d)) as Hmod.
  assert (Hf : (n `div` Z.pos d ≤ k)%Z).
  { apply Z.div_le_upper_bound; lia. }
  assert (Hup : (0 < n `mod` Z.pos d → n `div` Z.pos d + 1 ≤ k)%Z).
  { intros Hpos. nia. }
  repeat case_match; try lia;
    repeat match goal with
           | H : (_ <? _)%Z = _ |- _ => apply Z.ltb_ge in H || apply Z.ltb_lt in H
           end; lia.
Qed.

Lemma pow10_pos (n : nat) : (0 < 10 ^ Z.of_nat n)%Z.
Proof. apply Z.pow_pos_nonneg; lia. Qed.

Lemma round_to_ge (ndigits : nat) (x : Q) (k : Z) :
  (inject_Z k <= x)%Q → (inject_Z k <= round_to ndigits x)%Q.
Proof.
  intros Hk. unfold round_to. cbv zeta.
  pose proof (pow10_pos ndigits) as Hp.
  set (p := (10 ^ Z.of_nat ndigits)%Z) in *.
  assert (Hr : (k * p ≤ round_half_even (x * inject_Z p))%Z).
  { apply round_half_even_ge. rewrite inject_Z_mult.
    apply Qmult_le_compat_r; [done|]. unfold Qle. simpl. lia. }
  unfold Qle. simpl. rewrite Z2Pos.id by done. lia.
Qed.

Lemma round_to_le (ndigits : nat) (x : Q) (k : Z) :
  (x <= inject_Z k)%Q → (round_to ndigits x <= inject_Z k)%Q.
Proof.
  intros Hk. unfold round_to. cbv zeta.
  pose proof (pow10_pos ndigits) as Hp.
  set (p := (10 ^ Z.of_nat ndigits)%Z) in *.
  assert (Hr : (round_half_even (x * inject_Z p) ≤ k * p)%Z).
  { apply round_half_even_le. rewrite inject_Z_mult.
    apply Qmult_le_compat_r; [done|]. unfold Qle. simpl. lia. }
  unfold Qle. simpl. rewrite Z2Pos.id by done. lia.
Qed.

Lemma Qlt_bool_true (x y : Q) : Qlt_bool x y = true ↔ (x < y)%Q.
Proof.
  unfold Qlt_bool. rewrite negb_true_iff, <- not_true_iff_false,
    Qle_bool_iff. split; [apply Qnot_le_lt|apply Qlt_not_le].
Qed.

Lemma Qlt_bool_false (x y : Q) : Qlt_bool x y = false ↔ (y <= x)%Q.
Proof. unfold Qlt_bool. by rewrite negb_false_iff, Qle_bool_iff. Qed.

Lemma raw_score_range (income last_update : Q) (interruptions : Z)
    (scheme_type : string) (noise : Q) :
  (0 <= raw_score income last_update interruptions scheme_type noise <= 100)%Q.
Proof.
  unfold raw_score. cbv zeta.
  match goal with |- context [py_min 100 ?x] => generalize x end.
  intros x. unfold py_max, py_min, Qgt_bool.
  change (negb (Qle_bool ?a ?b)) with (Qlt_bool b a).
  destruct (Qlt_bool x 100) eqn:H100.
  - apply Qlt_bool_true in H100.
    destruct (Qlt_bool 0 x) eqn:H0.
    + apply Qlt_bool_true in H0. split; by apply Qlt_le_weak.
    + split; [apply Qle_refl|discriminate].
  - destruct (Qlt_bool 0 100) eqn:H0; [|discriminate].
    split; [discriminate|apply Qle_refl].
Qed.

(** X22. Every row [generate_synthetic_welfare_dataset] labels has a
    stored risk score between 0 and 100 and one of the levels low,
    medium, high; the level is cut at 30 and 60 on the score before it
    is rounded to two decimals, so a row labelled low has a stored
    score of at most 30, a row labelled medium one from 30 to 60, and a
    row labelled high one of at least 60. *)
Theorem generated_row_labels (i : nat) (d : draws) :
  let r := generate_row i d in
  (0 <= risk_score r <= 100)%Q
  ∧ ((risk_level r = "low" ∧ (risk_score r <= 30)%Q)
     ∨ (risk_level r = "medium" ∧ (30 <= risk_score r <= 60)%Q)
     ∨ (risk_level r = "high" ∧ (60 <= risk_score r)%Q)).
Proof.
  intros r. subst r. unfold generate_row. cbv zeta. simpl.
  match goal with
  | |- context [round_to 2 ?s] =>
    pose proof (raw_score_range (np_maximum 5000 (base_income d))
                  (np_minimum (exp_update d) 36)
                  (Z.min (poisson_interruptions d) 5) (scheme_choice d)
                  (noise d)) as [H0 H100];
    generalize dependent s
  end.
  intros s H0 H100. split.
  - split; [by apply (round_to_ge 2 s 0)|by apply (round_to_le 2 s 100)].
  - unfold level_of.
    destruct (Qlt_bool s 30) eqn:H30.
    { apply Qlt_bool_true in H30. left. split; [done|].
      apply (round_to_le 2 s 30). by apply Qlt_le_weak. }
    apply Qlt_bool_false in H30.
    destruct (Qlt_bool s 60) eqn:H60.
    { apply Qlt_bool_true in H60. right; left. split; [done|]. split.
      - by apply (round_to_ge 2 s 30).
      - apply (round_to_le 2 s 60). by apply Qlt_le_weak. }
    apply Qlt_bool_false in H60. right; right. split; [done|].
    by apply (round_to_ge 2 s 60).
Qed.

(** X23. Every generated row is a request the API accepts: when the
    draws lie where their distributions put them (a scheme out of the
    three choices, a waiting time and a count that are not negative),
    the row has an income of at least 5000, at most 36 months since the
    last update, between 0 and 5 interruptions, and passes the field
    constraints of [CitizenCase]. *)
Theorem generated_row_is_valid_request (i : nat) (d : draws) :
  (0 <= exp_update d)%Q → (0 ≤ poisson_interruptions d)%Z →
  scheme_choice d ∈ ["pension"; "subsidy"; "ration"] →
  let r := generate_row i d in
  (5000 <= income r)%Q
  ∧ (0 <= last_document_update_months r <= 36)%Q
  ∧ (0 ≤ past_benefit_interruptions r ≤ 5)%Z
  ∧ App.valid_CitizenCase (to_case r) = true.
Proof.
  intros Hexp Hpois Hscheme r. subst r.
  unfold generate_row. cbv zeta. simpl.
  assert (Hinc : (5000 <= round_to 2 (np_maximum 5000 (base_income d)))%Q).
  { apply (round_to_ge 2 _ 5000). unfold np_maximum.
    destruct (Qlt_bool 5000 (base_income d)) eqn:H.
    - apply Qlt_bool_true in H. by apply Qlt_le_weak.
    - apply Qle_refl. }
  assert (Hupd : (0 <= round_to 1 (np_minimum (exp_update d) 36) <= 36)%Q).
  { unfold np_minimum.
    destruct (Qlt_bool 36 (exp_update d)) eqn:H.
    - split; [by apply (round_to_ge 1 _ 0)|by apply (round_to_le 1 _ 36)].
    - apply Qlt_bool_false in H.
      split; [by apply (round_to_ge 1 _ 0)|by apply (round_to_le 1 _ 36)]. }
  split; [done|]. split; [done|]. split; [lia|].
  unfold App.valid_CitizenCase, to_case. simpl.
  repeat (apply andb_true_iff; split).
  - apply negb_true_iff, not_true_iff_false. rewrite Qle_bool_iff.
    intros Hle. by apply (Qle_trans _ _ _ Hinc Hle).
  - apply Qle_bool_iff. apply Hupd.
  - rewrite !elem_of_cons, elem_of_nil in Hscheme.
    by destruct Hscheme as [->|[->|[->|[]]]].
  - lia.
  - lia.
Qed.

End DatasetProperties.

Lemma generated_row_is_valid_request_witness :
  (0 <= Step1.exp_update sample_draws)%Q
  ∧ (0 ≤ Step1.poisson_interruptions sample_draws)%Z
  ∧ Step1.scheme_choice sample_draws ∈ ["pension"; "subsidy"; "ration"]
  ∧ App.valid_CitizenCase (Step1.to_case (Step1.generate_row 1 sample_draws))
    = true.
Proof.
  assert (H1 : (0 <= Step1.exp_update sample_draws)%Q) by discriminate.
  assert (H2 : (0 ≤ Step1.poisson_interruptions sample_draws)%Z)
    by (simpl; lia).
  assert (H3 : Step1.scheme_choice sample_draws
               ∈ ["pension"; "subsidy"; "ration"]) by (by left).
  split; [exact H1|]. split; [exact H2|]. split; [exact H3|].
  exact (proj2 (proj2 (proj2 (generated_row_is_valid_request 1 sample_draws
                                H1 H2 H3)))).
Defined.

Example generated_row_sample :
  Step1.generate_row 1 sample_draws
  = {| Step1.citizen_id := "CIT_000001";
       Step1.income := 3123457 # 100;
       Step1.last_document_update_months := 360 # 10;
       Step1.scheme_type := "pension";
       Step1.past_benefit_interruptions := 5;
       Step1.risk_score := 10000 # 100;
       Step1.risk_level := "high" |}.
Proof. reflexivity. Qed.
